(** * EyeMech control interface (Interface.py): model and properties

    The program is a Tkinter panel that turns pointer events on a circular
    "radar" into text commands for an Arduino: [EYE x y], [LID n], [BLINK].
    It has three classes, modelled here in three modules of the same names:

    - [Communication]: the serial link ([connect], [send]);
    - [EyeMech]: the command encoder ([move_eye], [control_lid], [blink]);
    - [Interface]: the event handlers of the canvas.

    Numbers are modelled as the program has them.  Pixel coordinates and
    wheel deltas are Python integers, hence [Z].  The gaze coordinates are
    produced by [np.interp] and are IEEE binary64 values; they are modelled
    with the executable binary64 specification of the Standard Library
    ([SpecFloat], precision 53, maximal exponent 1024), every operation
    being rounded on its own (no fused multiply-add).  Clock readings of
    [time.time()] are modelled as exact rationals, and the sampling
    interval as 1/100 of a second.

    The outcome of opening a serial port is a parameter of the model;
    closing a port and writing to an open port are taken to succeed.

    What a handler does to the outside world is recorded as a list of
    [effect]s, in program order. *)

From Stdlib Require Import ZArith QArith Qround Qabs Lia Lqa.
From Stdlib Require Import List String Ascii Bool Sorted.
From Stdlib Require Import SpecFloat Decimal DecimalString DecimalPos DecimalZ.
Import ListNotations.

Open Scope Z_scope.

(* ================================================================== *)
(** ** Binary64 arithmetic *)

Module Float64.

Definition prec : Z := 53.
Definition emax : Z := 1024.

Definition float := spec_float.

(** Conversion of a Python [int] to a double (exact below 2^53). *)
Definition of_Z (z : Z) : float := binary_normalize prec emax z 0 false.

Definition add : float -> float -> float := SFadd prec emax.
Definition sub : float -> float -> float := SFsub prec emax.
Definition mul : float -> float -> float := SFmul prec emax.
Definition div : float -> float -> float := SFdiv prec emax.
Definition opp : float -> float := SFopp.
Definition ltb : float -> float -> bool := SFltb.
Definition eqb : float -> float -> bool := SFeqb.

Definition is_nan (f : float) : bool :=
  match f with S754_nan => true | _ => false end.

Definition is_finite (f : float) : bool :=
  match f with S754_zero _ | S754_finite _ _ _ => true | _ => false end.

(** The rational a finite double denotes (both zeros denote 0; the value
    given to infinities and NaN is a placeholder, never relied upon). *)
Definition to_Q (f : float) : Q :=
  match f with
  | S754_finite s m e =>
      let n := if s then Z.neg m else Z.pos m in
      if 0 <=? e then inject_Z (n * 2 ^ e)
      else Qmake n (Z.to_pos (2 ^ (- e)))
  | _ => 0%Q
  end.

End Float64.

Abbreviation float := Float64.float.

(* ================================================================== *)
(** ** The Python and NumPy primitives the program calls *)

Module Py.

(** [str(n)] for an [int]: decimal digits, a leading "-" when negative. *)
Definition str_int (z : Z) : string := NilZero.string_of_int (Z.to_int z).

(** Its inverse, used to state that nothing is lost in the text. *)
Definition int_of_str (s : string) : option Z :=
  option_map Z.of_int (NilZero.int_of_string s).

(** [n / d] rounded to the nearest integer, ties to the even one
    ([0 < d]); the rounding of Python's float formatting. *)
Definition round_half_even (n d : Z) : Z :=
  let q := n / d in
  let r := n mod d in
  match 2 * r ?= d with
  | Lt => q
  | Gt => q + 1
  | Eq => if Z.even q then q else q + 1
  end.

(** Magnitude [m * 2^e], in hundredths, correctly rounded. *)
Definition hundredths (m : positive) (e : Z) : Z :=
  if 0 <=? e then Z.pos m * 2 ^ e * 100
  else round_half_even (Z.pos m * 100) (2 ^ (- e)).

Definition digit (d : Z) : ascii := ascii_of_nat (48 + Z.to_nat d).

(** A non-negative count of hundredths printed with two decimals. *)
Definition fixed2 (h : Z) : string :=
  str_int (h / 100) ++ "."
    ++ String (digit (h mod 100 / 10)) (String (digit (h mod 10)) "").

Definition sign_str (s : bool) : string := if s then "-" else "".

(** ["{:.2f}".format(f)]: the sign bit is printed, also on a zero. *)
Definition format_2f (f : float) : string :=
  match f with
  | S754_zero s => sign_str s ++ fixed2 0
  | S754_infinity s => sign_str s ++ "inf"
  | S754_nan => "nan"
  | S754_finite s m e => sign_str s ++ fixed2 (hundredths m e)
  end.

(** [s.encode()]: strings are kept as their UTF-8 bytes already. *)
Definition encode (s : string) : list Byte.byte := list_byte_of_string s.

(** Evaluation of [np.interp] inside the segment from [(x0, y0)] to
    [(x1, y1)], with NumPy's retry from the other end on NaN. *)
Definition segment (x x0 y0 x1 y1 : float) : float :=
  let slope := Float64.div (Float64.sub y1 y0) (Float64.sub x1 x0) in
  let r := Float64.add (Float64.mul slope (Float64.sub x x0)) y0 in
  if Float64.is_nan r then
    let r' := Float64.add (Float64.mul slope (Float64.sub x x1)) y1 in
    if Float64.is_nan r' && Float64.eqb y0 y1 then y0 else r'
  else r.

(** Search of the last sample point [p] with [fst p <= x], then the value
    there: the ordinate itself on a sample point or at the last one. *)
Fixpoint locate (x : float) (p : float * float)
    (rest : list (float * float)) : float :=
  match rest with
  | [] => snd p
  | q :: rest' =>
      if Float64.ltb x (fst q) then
        if Float64.eqb (fst p) x then snd p
        else segment x (fst p) (snd p) (fst q) (snd q)
      else locate x q rest'
  end.

(** [np.interp(x, xp, fp)] for a scalar [x] and increasing [xp], with the
    default [left = fp[0]] and [right = fp[-1]].  (NumPy refuses an empty
    [xp]; the model answers NaN there.) *)
Definition interp (x : float) (xp fp : list float) : float :=
  match combine xp fp with
  | [] => S754_nan
  | p :: rest =>
      if Float64.is_nan x then x
      else if Float64.ltb (fst (last rest p)) x then snd (last rest p)
      else if Float64.ltb x (fst p) then snd p
      else locate x p rest
  end.

End Py.

(* ================================================================== *)
(** ** Effects on the outside world *)

Inductive effect : Type :=
| Echo (cmd : string)
    (** [print(f"-> {cmd}")]: the console echo of a command *)
| Serial_open (port : string) (baud timeout : Z) (err : option string)
    (** [serial.Serial(port, baud, timeout=..)]; [err] is the message of the
        exception it raised, if any *)
| Serial_close (port : string)
| Serial_write (port : string) (data : list Byte.byte)
| Sleep (seconds : Z)
| Canvas_delete (tag : string)
| Canvas_create_oval (x0 y0 x1 y1 : Z) (fill tags : string).

(** The commands handed to [Communication.send], in order: [send] echoes
    every one of them, connected or not. *)
Definition commands (tr : list effect) : list string :=
  flat_map (fun e => match e with Echo cmd => [cmd] | _ => [] end) tr.

(** The bytes written to a serial port, in order. *)
Definition writes (tr : list effect) : list (string * list Byte.byte) :=
  flat_map (fun e => match e with Serial_write p d => [(p, d)] | _ => [] end) tr.

(* ================================================================== *)
(** ** class Communication *)

Module Communication.

(** A [serial.Serial] object. *)
Record Serial : Type := {
  ser_port : string;
  ser_baudrate : Z;
  ser_timeout : Z;
  is_open : bool
}.

Record t : Type := {
  baudrate : Z;
  ser : option Serial;
  port : option string
}.

(** [Communication(baudrate=9600)] *)
Definition default_baudrate : Z := 9600.

Definition __init__ (baudrate : Z) : t :=
  {| baudrate := baudrate; ser := None; port := None |}.

(** [self.ser and self.ser.is_open] *)
Definition connected (c : t) : bool :=
  match ser c with
  | Some s => is_open s
  | None => false
  end.

Section Connect.

(** The operating system's answer to an attempt to open a port:
    [None] when it opens, [Some msg] when [serial.Serial] raises an
    exception [e] with [str(e) = msg]. *)
Variable open_error : string -> Z -> option string.

(** [connect]: the new object, the returned pair and the effects.
    Closing an open port is taken not to raise. *)
Definition connect (c : t) (port_name : string)
    : t * (bool * string) * list effect :=
  let closing :=
    match ser c with
    | Some s => if is_open s then [Serial_close (ser_port s)] else []
    | None => []
    end in
  match open_error port_name (baudrate c) with
  | None =>
      ({| baudrate := baudrate c;
          ser := Some {| ser_port := port_name;
                         ser_baudrate := baudrate c;
                         ser_timeout := 1;
                         is_open := true |};
          port := Some port_name |},
       (true, (port_name ++ "@" ++ Py.str_int (baudrate c))%string),
       closing ++ [Serial_open port_name (baudrate c) 1 None; Sleep 2])
  | Some msg =>
      ({| baudrate := baudrate c; ser := None; port := port c |},
       (false, msg),
       closing ++ [Serial_open port_name (baudrate c) 1 (Some msg)])
  end.

End Connect.

(** [send]: the object after the call and the effects.  A write on an
    open port is taken not to raise. *)
Definition send (c : t) (cmd : string) : t * list effect :=
  (c,
   Echo cmd ::
     match ser c with
     | Some s =>
         if is_open s
         then [Serial_write (ser_port s) (Py.encode (cmd ++ String "010" ""))]
         else []
     | None => []
     end).

End Communication.

(* ================================================================== *)
(** ** class EyeMech

    The object holds a reference to the [Communication] object of the
    interface; the methods take that object and give it back. *)

Module EyeMech.

Definition move_eye (c : Communication.t) (x y : float)
    : Communication.t * list effect :=
  Communication.send c
    ("EYE " ++ Py.format_2f x ++ " " ++ Py.format_2f y)%string.

Definition control_lid (c : Communication.t) (delta : Z)
    : Communication.t * list effect :=
  Communication.send c ("LID " ++ Py.str_int delta)%string.

Definition blink (c : Communication.t) : Communication.t * list effect :=
  Communication.send c "BLINK"%string.

End EyeMech.

(* ================================================================== *)
(** ** class Interface *)

Module Interface.

(** Geometry of the radar, set once in [_build_ui]. *)
Definition canvas_size : Z := 400.
Definition margin : Z := 20.
Definition radius : Z := canvas_size / 2 - margin.
Definition center_x : Z := canvas_size / 2.
Definition center_y : Z := canvas_size / 2.

(** [self.send_interval = 0.01], in seconds; never reassigned.  The
    source holds the double nearest to 1/100, which lies just above it; no
    double lies between the two, so a difference that is itself a double
    is at least one exactly when it is at least the other. *)
Definition send_interval : Q := 1 # 100.

(** The mutable attributes the handlers read or write. *)
Record state : Type := {
  comm : Communication.t;
  dragging : bool;
  last_send_time : Q
}.

Definition __init__ : state :=
  {| comm := Communication.__init__ Communication.default_baudrate;
     dragging := false;
     last_send_time := 0 |}.

(** The events bound in [_bind_events].  A wheel event carries the
    attributes the handler looks up with [getattr]: [delta] is [None] when
    the attribute is missing, [num] is [None] when it is missing or is not
    an integer. *)
Inductive event : Type :=
| Button_1 (x y : Z)
| B1_Motion (x y : Z)
| ButtonRelease_1
| Button_3
| MouseWheel (delta num : option Z).

(** The test [dx*dx + dy*dy <= self.radius*self.radius]. *)
Definition inside (x y : Z) : bool :=
  let dx := x - center_x in
  let dy := y - center_y in
  dx * dx + dy * dy <=? radius * radius.

(** The candidate position [(tx, ty)]. *)
Definition target (x y : Z) : Z * Z :=
  if inside x y then (x, y) else (center_x, center_y).

(** [np.interp(t, [c - r, c + r], [-50, 50])] *)
Definition map_axis (t c r : Z) : float :=
  Py.interp (Float64.of_Z t)
    [Float64.of_Z (c - r); Float64.of_Z (c + r)]
    [Float64.of_Z (-50); Float64.of_Z 50].

(** The pair [(map_x, map_y)] computed for a pointer position. *)
Definition gaze (x y : Z) : float * float :=
  let '(tx, ty) := target x y in
  (map_axis tx center_x radius, Float64.opp (map_axis ty center_y radius)).

Definition _update_dot_and_send (s : state) (x y : Z) : state * list effect :=
  let '(tx, ty) := target x y in
  let draw :=
    [Canvas_delete "click_dot";
     Canvas_create_oval (tx - 5) (ty - 5) (tx + 5) (ty + 5) "blue" "click_dot"] in
  let map_x := map_axis tx center_x radius in
  let map_y := Float64.opp (map_axis ty center_y radius) in
  let '(c, out) := EyeMech.move_eye (comm s) map_x map_y in
  ({| comm := c; dragging := dragging s; last_send_time := last_send_time s |},
   draw ++ out).

Definition _on_left_press (s : state) (x y : Z) : state * list effect :=
  let s1 := {| comm := comm s; dragging := true;
               last_send_time := last_send_time s |} in
  _update_dot_and_send s1 x y.

(** [now] is the value [time.time()] returns when the handler runs; it is
    read only while dragging.  The source subtracts two doubles and
    compares the rounded difference with the double 0.01; the model
    compares the exact difference with 1/100.  From the initial state the
    recorded time is 0 or an earlier reading that was at least 0.01, and
    then the subtraction is exact or the gap exceeds the interval, so both
    take the same branch at every clock reading that is a double. *)
Definition _on_drag (now : Q) (s : state) (x y : Z) : state * list effect :=
  if negb (dragging s) then (s, [])
  else if Qle_bool send_interval (now - last_send_time s) then
    let '(s1, out) := _update_dot_and_send s x y in
    ({| comm := comm s1; dragging := dragging s1; last_send_time := now |},
     out)
  else (s, []).

Definition _on_left_release (s : state) : state * list effect :=
  ({| comm := comm s; dragging := false;
      last_send_time := last_send_time s |}, []).

Definition with_comm (s : state) (r : Communication.t * list effect)
    : state * list effect :=
  ({| comm := fst r; dragging := dragging s;
      last_send_time := last_send_time s |}, snd r).

(** [getattr(event, "delta", 0)] *)
Definition getattr_delta (delta : option Z) : Z :=
  match delta with
  | Some d => d
  | None => 0
  end.

(** The first test is the truth value of an integer, that is, whether it
    is not zero; [event.delta // 120] is Python's floor division. *)
Definition _on_wheel (s : state) (delta num : option Z)
    : state * list effect :=
  if negb (getattr_delta delta =? 0) then
    with_comm s (EyeMech.control_lid (comm s) (getattr_delta delta / 120))
  else
    match num with
    | Some n =>
        if (n =? 4) || (n =? 5)
        then with_comm s (EyeMech.control_lid (comm s)
                            (if n =? 4 then 1 else -1))
        else (s, [])
    | None => (s, [])
    end.

Definition _on_right_click (s : state) : state * list effect :=
  with_comm s (EyeMech.blink (comm s)).

(** One event handled at clock reading [now]. *)
Definition step (now : Q) (s : state) (ev : event) : state * list effect :=
  match ev with
  | Button_1 x y => _on_left_press s x y
  | B1_Motion x y => _on_drag now s x y
  | ButtonRelease_1 => _on_left_release s
  | Button_3 => _on_right_click s
  | MouseWheel delta num => _on_wheel s delta num
  end.

(** A run of the event loop: each event with the clock reading at which it
    is handled, and what its handler did. *)
Fixpoint transcript (s : state) (evs : list (Q * event))
    : list (Q * event * list effect) :=
  match evs with
  | [] => []
  | (now, ev) :: evs' =>
      let '(s', out) := step now s ev in
      (now, ev, out) :: transcript s' evs'
  end.

Fixpoint run (s : state) (evs : list (Q * event)) : state :=
  match evs with
  | [] => s
  | (now, ev) :: evs' => run (fst (step now s ev)) evs'
  end.

(** All the effects of a run, in order. *)
Definition trace (s : state) (evs : list (Q * event)) : list effect :=
  flat_map snd (transcript s evs).

End Interface.

(* ================================================================== *)
(** ** The mapping as the specification words it

    These two definitions follow the specification, not the program: the
    exact linear map of a pixel interval onto [-50, 50], and the rendering
    of an exact rational with two decimals.  The theorems compare them with
    what the program computes in binary64. *)

Module Spec.

(** The linear map of [[c - r, c + r]] onto [[-50, 50]], at [t]. *)
Definition linear_map (t c r : Z) : Q :=
  (- (50) + inject_Z (t - (c - r)) * 100 / inject_Z ((c + r) - (c - r)))%Q.

(** A rational printed with two decimals, rounded to the nearest
    hundredth. *)
Definition format_2q (q : Q) : string :=
  let h := Py.round_half_even (Z.abs (Qnum q) * 100) (Z.pos (Qden q)) in
  (Py.sign_str (Qnum q <? 0)%Z ++ Py.fixed2 h)%string.

(** The tolerance within which the binary64 values follow the exact map. *)
Definition eps : Q := 1 # (2 ^ 45).

End Spec.

(** The integers [lo], [lo + 1], ..., [lo + n - 1]. *)
Definition Zrange (lo : Z) (n : nat) : list Z :=
  map (fun i => lo + Z.of_nat i) (seq 0 n).

(** The pixel columns (and rows) that meet the disc. *)
Definition pixels : list Z :=
  Zrange (Interface.center_x - Interface.radius)
         (Z.to_nat (2 * Interface.radius + 1)).

(** Distance test between a double and an exact rational. *)
Definition close_to (f : float) (q : Q) : bool :=
  Float64.is_finite f && Qle_bool (Qabs (Float64.to_Q f - q)) Spec.eps.

(* ================================================================== *)
(** ** Vocabulary of the statements *)

(** The port object and the connection object left by a successful
    [connect] to [p] at the default baud rate. *)
Definition serial_of (p : string) : Communication.Serial :=
  {| Communication.ser_port := p;
     Communication.ser_baudrate := Communication.default_baudrate;
     Communication.ser_timeout := 1;
     Communication.is_open := true |}.

Definition connected_to (p : string) : Communication.t :=
  {| Communication.baudrate := Communication.default_baudrate;
     Communication.ser := Some (serial_of p);
     Communication.port := Some p |}.

(** The text of an [EYE] command. *)
Definition eye_line (g : float * float) : string :=
  ("EYE " ++ Py.format_2f (fst g) ++ " " ++ Py.format_2f (snd g))%string.

Definition is_digit (a : ascii) : Prop :=
  exists k : Z, 0 <= k <= 9 /\ a = Py.digit k.

(** An optional minus sign, the decimal digits of a natural number, a
    point, and exactly two digits. *)
Definition two_decimals (s : string) : Prop :=
  exists (neg : bool) (ip : Z) (d1 d2 : ascii),
    0 <= ip /\ is_digit d1 /\ is_digit d2 /\
    s = (Py.sign_str neg ++ Py.str_int ip ++ "."
           ++ String d1 (String d2 ""))%string.

(** The clock readings of the pointer-move events of a run that sent a
    command, in order. *)
Definition move_emit_times (tr : list (Q * Interface.event * list effect))
    : list Q :=
  flat_map
    (fun r =>
       match r with
       | (now, Interface.B1_Motion _ _, out) =>
           match commands out with
           | [] => []
           | _ :: _ => [now]
           end
       | _ => []
       end) tr.

(** A pointer move: its clock reading and its position. *)
Definition move : Type := Q * (Z * Z).

Definition move_event (m : move) : Q * Interface.event :=
  (fst m, Interface.B1_Motion (fst (snd m)) (snd (snd m))).

(** One drag session: a press at clock reading [t0], then moves. *)
Definition drag_session (t0 : Q) (x0 y0 : Z) (moves : list move)
    : list (Q * Interface.event) :=
  (t0, Interface.Button_1 x0 y0) :: map move_event moves.

(** Two sample sessions: moves at 1, 4, 12 and 15 ms after a press at
    clock reading 5, and moves 5 ms apart at clock readings 1, 1.005 and
    1.01, which span exactly one sampling interval. *)
Definition sample_moves : list move :=
  [((5 + (1 # 1000))%Q, (210, 200)); ((5 + (4 # 1000))%Q, (220, 200));
   ((5 + (12 # 1000))%Q, (230, 200)); ((5 + (15 # 1000))%Q, (240, 200))].

Definition tight_moves : list move :=
  [(1%Q, (210, 200)); ((1 + (1 # 200))%Q, (220, 200));
   ((1 + (1 # 100))%Q, (230, 200))].


(** Two clock readings at least the sampling interval apart. *)
Definition apart (a b : Q) : Prop := (Interface.send_interval <= b - a)%Q.

(* ================================================================== *)
(** ** The port controls: [_update_ports] and [on_connect] *)

Module Ports.

(** What the port controls do: effects on the outside world, and the two
    dialog boxes of [messagebox]. *)
Inductive ui_effect : Type :=
| World (e : effect)
| Show_warning (title message : string)
| Show_error (title message : string).

(** [self.port_var], [self.status_var] and the values of the combo box. *)
Record widgets : Type := {
  port_var : string;
  status_var : string;
  port_values : list string
}.

(** The widgets as [_build_ui] creates them. *)
Definition built : widgets :=
  {| port_var := ""; status_var := "Not Connected"; port_values := [] |}.

(** [_update_ports]; [ports] is the list [self.comm.list_ports()] returns. *)
Definition _update_ports (w : widgets) (ports : list string) : widgets :=
  {| port_var := match ports with
                 | p :: _ => p
                 | [] => ""%string
                 end;
     status_var := status_var w;
     port_values := ports |}.

Section OnConnect.

Variable open_error : string -> Z -> option string.

(** [on_connect]: an empty selection only raises the warning box. *)
Definition on_connect (c : Communication.t) (w : widgets)
    : Communication.t * widgets * list ui_effect :=
  let port := port_var w in
  if String.eqb port "" then
    (c, w, [Show_warning "Connection Failed" "Select a port first"])
  else
    let '(c', (success, msg), tr) :=
      Communication.connect open_error c port in
    if success then
      (c',
       {| port_var := port_var w;
          status_var := ("Connected: " ++ msg)%string;
          port_values := port_values w |},
       map World tr)
    else
      (c',
       {| port_var := port_var w;
          status_var := "Connection Failed";
          port_values := port_values w |},
       (map World tr ++ [Show_error "Connection Failed" msg])%list).

End OnConnect.

End Ports.

(* ================================================================== *)
(** ** Further vocabulary: ports, canvas and command texts *)

(** A sequence of calls of [connect], each with the port asked for and the
    answer of the operating system to that attempt. *)
Fixpoint connect_all (c : Communication.t)
    (calls : list (string * option string))
    : Communication.t * list effect :=
  match calls with
  | [] => (c, [])
  | (port_name, answer) :: calls' =>
      let '(c1, _, tr1) :=
        Communication.connect (fun _ _ => answer) c port_name in
      let '(c2, tr2) := connect_all c1 calls' in
      (c2, (tr1 ++ tr2)%list)
  end.

(** The serial ports that are open after a trace, given those open before
    it: a successful opening adds its port, a closing removes it. *)
Definition live_step (open : list string) (e : effect) : list string :=
  match e with
  | Serial_open p _ _ None => p :: open
  | Serial_close p => remove string_dec p open
  | _ => open
  end.

Definition live (open : list string) (tr : list effect) : list string :=
  fold_left live_step tr open.

(** The largest number of ports open at the same time along a trace. *)
Fixpoint peak (open : list string) (tr : list effect) : nat :=
  match tr with
  | [] => List.length open
  | e :: tr' => Nat.max (List.length open) (peak (live_step open e) tr')
  end.

(** The port a connection object holds open, if any. *)
Definition held (c : Communication.t) : list string :=
  match Communication.ser c with
  | Some p => if Communication.is_open p then [Communication.ser_port p] else []
  | None => []
  end.

(** The bytes [send] writes for a list of commands on connection [c]. *)
Definition wire (c : Communication.t) (cmds : list string)
    : list (string * list Byte.byte) :=
  match Communication.ser c with
  | Some p =>
      if Communication.is_open p
      then map (fun cmd => (Communication.ser_port p,
                            (Py.encode cmd ++ [Byte.x0a])%list)) cmds
      else []
  | None => []
  end.

(** The two canvas calls that move the dot to a position. *)
Definition draw_dot (p : Z * Z) : list effect :=
  [Canvas_delete "click_dot";
   Canvas_create_oval (fst p - 5) (snd p - 5) (fst p + 5) (snd p + 5)
     "blue" "click_dot"].

(** The items of a canvas, each with its tag and its bounding box, as the
    canvas calls of a trace change them: [delete] removes the items of a
    tag, [create_oval] adds one. *)
Definition canvas_item : Type := string * (Z * Z * Z * Z).

Definition canvas_step (items : list canvas_item) (e : effect)
    : list canvas_item :=
  match e with
  | Canvas_delete tag =>
      filter (fun it => negb (String.eqb (fst it) tag)) items
  | Canvas_create_oval x0 y0 x1 y1 _ tags =>
      (items ++ [(tags, (x0, y0, x1, y1))])%list
  | _ => items
  end.

Definition canvas_after (items : list canvas_item) (tr : list effect)
    : list canvas_item :=
  fold_left canvas_step tr items.

(** A canvas holding the outer circle of the radar and a dot. *)
Definition sample_canvas : list canvas_item :=
  [("radar"%string, (20, 20, 380, 380));
   ("click_dot"%string, (95, 95, 105, 105))].

Definition dots (items : list canvas_item) : list canvas_item :=
  filter (fun it => String.eqb (fst it) "click_dot") items.

(** An oval that lies within the canvas. *)
Definition on_canvas (e : effect) : Prop :=
  match e with
  | Canvas_create_oval x0 y0 x1 y1 _ _ =>
      0 <= x0 /\ x0 < x1 /\ x1 <= Interface.canvas_size /\
      0 <= y0 /\ y0 < y1 /\ y1 <= Interface.canvas_size
  | _ => True
  end.

(** An effect on the serial link other than a write. *)
Definition touches_link (e : effect) : bool :=
  match e with
  | Serial_open _ _ _ _ | Serial_close _ | Sleep _ => true
  | _ => false
  end.

(** A text without a line feed. *)
Definition one_line (s : string) : bool :=
  forallb (fun ch => negb (Ascii.eqb ch "010")) (list_ascii_of_string s).

(** A text without a space. *)
Definition no_space (s : string) : bool :=
  forallb (fun ch => negb (Ascii.eqb ch " ")) (list_ascii_of_string s).

(** The three forms of command. *)
Definition is_command (cmd : string) : Prop :=
  (exists x y : Z, cmd = eye_line (Interface.gaze x y)) \/
  (exists d : Z, cmd = ("LID " ++ Py.str_int d)%string) \/
  cmd = "BLINK"%string.

(** Whether the button is held after a sequence of events, given whether
    it was held before: the last press or release decides. *)
Definition held_after (d : bool) (evs : list (Q * Interface.event)) : bool :=
  fold_left
    (fun b e =>
       match snd e with
       | Interface.Button_1 _ _ => true
       | Interface.ButtonRelease_1 => false
       | _ => b
       end) evs d.

(** A run without the wheel and right-button events. *)
Definition pointer_events (evs : list (Q * Interface.event))
    : list (Q * Interface.event) :=
  filter (fun e => match snd e with
                   | Interface.Button_3 | Interface.MouseWheel _ _ => false
                   | _ => true
                   end) evs.

(** The EYE lines among commands. *)
Definition eye_commands (cmds : list string) : list string :=
  filter (String.prefix "EYE ") cmds.

(** The x text sent for each pixel column that meets the disc. *)
Definition column_texts : list (Z * string) :=
  map (fun t => (t, Py.format_2f
                      (Interface.map_axis t Interface.center_x
                         Interface.radius))) pixels.

(** No two entries of a table with different keys have the same text. *)
Definition texts_differ (tab : list (Z * string)) : bool :=
  forallb
    (fun a =>
       forallb (fun b => (fst a =? fst b) || negb (String.eqb (snd a) (snd b)))
         tab) tab.

(* ================================================================== *)
(** * Properties *)

Import Interface.

(** ** Auxiliary facts on traces *)

Lemma commands_app (a b : list effect) :
  commands (a ++ b) = (commands a ++ commands b)%list.
Proof. unfold commands. apply flat_map_app. Qed.

Lemma send_commands (c : Communication.t) (cmd : string) :
  commands (snd (Communication.send c cmd)) = [cmd].
Proof.
  unfold Communication.send. simpl.
  destruct (Communication.ser c) as [p|]; [destruct (Communication.is_open p)|];
    reflexivity.
Qed.

Lemma gaze_eq (x y : Z) :
  gaze x y =
  (map_axis (fst (target x y)) center_x radius,
   Float64.opp (map_axis (snd (target x y)) center_y radius)).
Proof. unfold gaze. destruct (target x y); reflexivity. Qed.

Lemma update_commands (s : state) (x y : Z) :
  commands (snd (_update_dot_and_send s x y)) = [eye_line (gaze x y)].
Proof.
  unfold _update_dot_and_send. rewrite gaze_eq.
  destruct (target x y) as [tx ty]. unfold EyeMech.move_eye.
  cbn [fst snd Communication.send]. rewrite commands_app.
  cbn [commands flat_map app].
  destruct (Communication.ser (comm s)) as [p|];
    [destruct (Communication.is_open p)|]; reflexivity.
Qed.

Lemma update_state (s : state) (x y : Z) :
  fst (_update_dot_and_send s x y) = s.
Proof.
  unfold _update_dot_and_send. destruct (target x y) as [tx ty].
  destruct s; reflexivity.
Qed.

(** The handler as a whole: the state is kept, the dot is drawn at the
    candidate position and [move_eye] is called with the mapped pair. *)
Lemma update_calls (s : state) (x y : Z) :
  _update_dot_and_send s x y
    = (s, (draw_dot (target x y)
             ++ snd (EyeMech.move_eye (comm s)
                       (fst (gaze x y)) (snd (gaze x y))))%list).
Proof.
  rewrite (surjective_pairing (_update_dot_and_send s x y)), update_state.
  f_equal. unfold _update_dot_and_send. rewrite gaze_eq.
  destruct (target x y) as [tx ty]. reflexivity.
Qed.

(** ** Auxiliary facts on the disc *)

Lemma Zrange_In (lo : Z) (n : nat) (x : Z) :
  lo <= x < lo + Z.of_nat n -> In x (Zrange lo n).
Proof.
  intros H. unfold Zrange. apply in_map_iff.
  exists (Z.to_nat (x - lo)). split; [lia|].
  apply in_seq. lia.
Qed.

Lemma pixels_spec (x : Z) :
  center_x - radius <= x <= center_x + radius -> In x pixels.
Proof.
  intros H. unfold pixels. apply Zrange_In.
  change radius with 180 in *. change center_x with 200 in *. lia.
Qed.

Lemma on_pixels (P : Z -> bool) (x : Z) :
  forallb P pixels = true ->
  center_x - radius <= x <= center_x + radius -> P x = true.
Proof.
  intros HP Hx. rewrite forallb_forall in HP. apply HP, pixels_spec, Hx.
Qed.

Lemma inside_iff (x y : Z) :
  inside x y = true <->
  (x - center_x) * (x - center_x) + (y - center_y) * (y - center_y)
    <= radius * radius.
Proof. unfold inside. apply Z.leb_le. Qed.

Lemma inside_bounds (x y : Z) :
  inside x y = true ->
  center_x - radius <= x <= center_x + radius /\
  center_y - radius <= y <= center_y + radius.
Proof.
  rewrite inside_iff.
  change radius with 180. change center_x with 200. change center_y with 200.
  intros H.
  pose proof (Z.square_nonneg (x - 200)) as Hx.
  pose proof (Z.square_nonneg (y - 200)) as Hy.
  assert (Hsq : forall a, a * a <= 180 * 180 -> -180 <= a <= 180).
  { intros a Ha.
    destruct (Z_lt_le_dec 180 a); [nia|].
    destruct (Z_lt_le_dec a (-180)); [nia|lia]. }
  assert (Hx' := Hsq (x - 200)). assert (Hy' := Hsq (y - 200)). lia.
Qed.

Lemma target_inside (x y : Z) : inside x y = true -> target x y = (x, y).
Proof. unfold target. intros ->. reflexivity. Qed.

Lemma target_outside (x y : Z) :
  inside x y = false -> target x y = (center_x, center_y).
Proof. unfold target. intros ->. reflexivity. Qed.

(** ** The binary64 map against the exact map, pixel by pixel *)

Lemma map_axis_close :
  forallb (fun t => close_to (map_axis t center_x radius)
                      (Spec.linear_map t center_x radius)) pixels = true.
Proof. vm_compute. reflexivity. Qed.

Lemma map_axis_text :
  forallb (fun t => String.eqb (Py.format_2f (map_axis t center_x radius))
                      (Spec.format_2q (Spec.linear_map t center_x radius)))
    pixels = true.
Proof. vm_compute. reflexivity. Qed.

Lemma map_axis_opp_text :
  forallb (fun t =>
             String.eqb
               (Py.format_2f (Float64.opp (map_axis t center_y radius)))
               (if t =? center_y then "-0.00"%string
                else Spec.format_2q (- Spec.linear_map t center_y radius)))
    pixels = true.
Proof. vm_compute. reflexivity. Qed.

Lemma close_to_spec (f : float) (q : Q) :
  close_to f q = true -> (Qabs (Float64.to_Q f - q) <= Spec.eps)%Q.
Proof.
  unfold close_to. intros H. apply andb_true_iff in H as [_ H].
  apply Qle_bool_iff, H.
Qed.

Lemma to_Q_opp (f : float) :
  (Float64.to_Q (Float64.opp f) == - Float64.to_Q f)%Q.
Proof.
  destruct f as [s|s| |s m e]; try reflexivity.
  unfold Float64.opp, SFopp, Float64.to_Q.
  destruct (0 <=? e); destruct s; cbn [negb];
    unfold Qeq, Qopp; cbn [Qnum Qden inject_Z]; lia.
Qed.

Lemma map_axis_opp_close (t : Z) :
  center_y - radius <= t <= center_y + radius ->
  (Qabs (Float64.to_Q (Float64.opp (map_axis t center_y radius))
         - - Spec.linear_map t center_y radius) <= Spec.eps)%Q.
Proof.
  intros Ht.
  pose proof (close_to_spec _ _
    (on_pixels (fun t => close_to (map_axis t center_x radius)
                           (Spec.linear_map t center_x radius))
       t map_axis_close Ht)) as H.
  change center_y with center_x.
  setoid_replace
    (Float64.to_Q (Float64.opp (map_axis t center_x radius))
       - - Spec.linear_map t center_x radius)%Q
    with (- (Float64.to_Q (map_axis t center_x radius)
             - Spec.linear_map t center_x radius))%Q
    by (rewrite to_Q_opp; ring).
  rewrite Qabs_opp. exact H.
Qed.

(* ------------------------------------------------------------------ *)
(** ** C1: the gaze coordinates are the linear map *)

(** C1, as amended.  For every pointer position on or inside the circle the
    handler hands exactly one command to the transport, the [EYE] line of
    the two values computed by [np.interp]; these binary64 values lie
    within [2^-45] of the exact linear map of [x] from [[cx - r, cx + r]]
    onto [[-50, 50]] and of the negated linear map of [y]; the text sent
    for [x] is the exact map rounded to two decimals, and so is the text
    for [y], except on the row of the centre, where the negation of the
    zero prints as [-0.00].  With centre (200, 200) and radius 180:
    pointer (200, 20) sends (0.00, 50.00), pointer (20, 200) sends
    (-50.00, -0.00) and pointer (500, 500) sends (0.00, -0.00). *)
Theorem C1_gaze_is_linear_map :
  (forall (s : state) (x y : Z),
      (x - center_x) * (x - center_x) + (y - center_y) * (y - center_y)
        <= radius * radius ->
      let mx := map_axis x center_x radius in
      let my := Float64.opp (map_axis y center_y radius) in
      gaze x y = (mx, my) /\
      commands (snd (_update_dot_and_send s x y))
        = [("EYE " ++ Py.format_2f mx ++ " " ++ Py.format_2f my)%string] /\
      (Qabs (Float64.to_Q mx - Spec.linear_map x center_x radius)
         <= Spec.eps)%Q /\
      (Qabs (Float64.to_Q my - - Spec.linear_map y center_y radius)
         <= Spec.eps)%Q /\
      Py.format_2f mx = Spec.format_2q (Spec.linear_map x center_x radius) /\
      Py.format_2f my =
        (if y =? center_y then "-0.00"%string
         else Spec.format_2q (- Spec.linear_map y center_y radius)))
  /\ (center_x, center_y, radius) = (200, 200, 180)
  /\ (forall s, commands (snd (_update_dot_and_send s 200 20))
                = ["EYE 0.00 50.00"%string])
  /\ (forall s, commands (snd (_update_dot_and_send s 20 200))
                = ["EYE -50.00 -0.00"%string])
  /\ (forall s, commands (snd (_update_dot_and_send s 500 500))
                = ["EYE 0.00 -0.00"%string]).
Proof.
  split; [|split; [reflexivity|repeat split; intros s;
                     rewrite update_commands; vm_compute; reflexivity]].
  intros s x y Hin mx my.
  apply inside_iff in Hin.
  destruct (inside_bounds x y Hin) as [Hx Hy].
  assert (Hg : gaze x y = (mx, my)).
  { rewrite gaze_eq, (target_inside x y Hin). reflexivity. }
  split; [exact Hg|].
  split; [rewrite update_commands, Hg; reflexivity|].
  split.
  { apply close_to_spec.
    apply (on_pixels (fun t => close_to (map_axis t center_x radius)
                                 (Spec.linear_map t center_x radius)));
      [exact map_axis_close | exact Hx]. }
  split; [apply map_axis_opp_close, Hy|].
  split.
  - apply String.eqb_eq.
    apply (on_pixels (fun t =>
             String.eqb (Py.format_2f (map_axis t center_x radius))
               (Spec.format_2q (Spec.linear_map t center_x radius))));
      [exact map_axis_text | exact Hx].
  - apply String.eqb_eq.
    apply (on_pixels (fun t =>
             String.eqb
               (Py.format_2f (Float64.opp (map_axis t center_y radius)))
               (if t =? center_y then "-0.00"%string
                else Spec.format_2q (- Spec.linear_map t center_y radius))));
      [exact map_axis_opp_text | exact Hy].
Qed.

Lemma C1_gaze_is_linear_map_witness :
  (100 - center_x) * (100 - center_x) + (250 - center_y) * (250 - center_y)
    <= radius * radius /\
  commands (snd (_update_dot_and_send __init__ 100 250))
    = ["EYE -27.78 -13.89"%string].
Proof.
  split; [vm_compute; discriminate|].
  destruct (proj1 C1_gaze_is_linear_map __init__ 100 250) as (_ & H & _).
  - vm_compute; discriminate.
  - rewrite H. vm_compute. reflexivity.
Defined.

(** The claim as written gives (-50.00, 0.00) for pointer (20, 200); the
    program sends (-50.00, -0.00). *)
Lemma C1_counterexample :
  commands (snd (_update_dot_and_send __init__ 20 200))
    <> ["EYE -50.00 0.00"%string].
Proof. vm_compute. discriminate. Qed.

(* ------------------------------------------------------------------ *)
(** ** C4: outside the circle the position snaps to the centre *)

(** C4.  For every pointer position strictly outside the circle the
    candidate position is the exact centre and both mapped outputs are
    zeros (plus zero for [x], minus zero for [y], the negation of a plus
    zero), hence equal to 0 exactly: the handler draws the dot at the
    centre and calls [move_eye] with these two zeros, which sends
    [EYE 0.00 -0.00].  A position on or inside the circle is kept as it
    is: the handler draws the dot there and calls [move_eye] with the
    values mapped from it. *)
Theorem C4_outside_snaps_to_center (s : state) (x y : Z) :
  ((x - center_x) * (x - center_x) + (y - center_y) * (y - center_y)
     > radius * radius ->
   target x y = (center_x, center_y) /\
   gaze x y = (S754_zero false, S754_zero true) /\
   (Float64.to_Q (fst (gaze x y)) == 0)%Q /\
   (Float64.to_Q (snd (gaze x y)) == 0)%Q /\
   Float64.eqb (fst (gaze x y)) (Float64.of_Z 0) = true /\
   Float64.eqb (snd (gaze x y)) (Float64.of_Z 0) = true /\
   _update_dot_and_send s x y
     = (s, (draw_dot (center_x, center_y)
              ++ snd (EyeMech.move_eye (comm s)
                        (S754_zero false) (S754_zero true)))%list) /\
   commands (snd (_update_dot_and_send s x y)) = ["EYE 0.00 -0.00"%string])
  /\
  ((x - center_x) * (x - center_x) + (y - center_y) * (y - center_y)
     <= radius * radius ->
   target x y = (x, y) /\
   _update_dot_and_send s x y
     = (s, (draw_dot (x, y)
              ++ snd (EyeMech.move_eye (comm s)
                        (map_axis x center_x radius)
                        (Float64.opp (map_axis y center_y radius))))%list)).
Proof.
  split.
  - intros Hout.
    assert (Hi : inside x y = false).
    { unfold inside. apply Z.leb_gt. lia. }
    assert (Hg : gaze x y = (S754_zero false, S754_zero true)).
    { rewrite gaze_eq, (target_outside x y Hi). vm_compute. reflexivity. }
    split; [apply target_outside, Hi|].
    rewrite update_commands, update_calls, Hg, (target_outside x y Hi).
    repeat split; reflexivity.
  - intros Hin. apply inside_iff in Hin.
    split; [apply target_inside, Hin|].
    rewrite update_calls, gaze_eq, (target_inside x y Hin). reflexivity.
Qed.

Lemma C4_outside_snaps_to_center_witness :
  target 500 500 = (center_x, center_y) /\
  commands (snd (_update_dot_and_send __init__ 500 500))
    = ["EYE 0.00 -0.00"%string] /\
  target 20 200 = (20, 200).
Proof.
  split; [|split].
  - apply (proj1 (C4_outside_snaps_to_center __init__ 500 500)).
    vm_compute. reflexivity.
  - apply (proj1 (C4_outside_snaps_to_center __init__ 500 500)).
    vm_compute. reflexivity.
  - apply (proj2 (C4_outside_snaps_to_center __init__ 20 200)).
    vm_compute. discriminate.
Defined.

(* ------------------------------------------------------------------ *)
(** ** C9: monotonicity of the mapped x output *)

Lemma linear_map_step (x1 x2 : Z) :
  x1 < x2 ->
  (Spec.linear_map x1 center_x radius + (100 # 360)
     <= Spec.linear_map x2 center_x radius)%Q.
Proof.
  intros H. unfold Spec.linear_map.
  change center_x with 200. change radius with 180.
  change (inject_Z (200 + 180 - (200 - 180))) with (360 # 1)%Q.
  assert (Hq : (inject_Z (x1 - (200 - 180)) + 1
                  <= inject_Z (x2 - (200 - 180)))%Q).
  { change 1%Q with (inject_Z 1). rewrite <- inject_Z_plus.
    rewrite <- Zle_Qle. lia. }
  set (a := inject_Z (x1 - (200 - 180))) in *.
  set (b := inject_Z (x2 - (200 - 180))) in *.
  clearbody a b.
  unfold Qdiv. change (/ (360 # 1))%Q with (1 # 360)%Q. lra.
Qed.

Lemma map_axis_bounds (t : Z) :
  center_x - radius <= t <= center_x + radius ->
  (Spec.linear_map t center_x radius - Spec.eps
     <= Float64.to_Q (map_axis t center_x radius)
     <= Spec.linear_map t center_x radius + Spec.eps)%Q.
Proof.
  intros Ht.
  pose proof (close_to_spec _ _
    (on_pixels (fun t => close_to (map_axis t center_x radius)
                           (Spec.linear_map t center_x radius))
       t map_axis_close Ht)) as H.
  apply Qabs_Qle_condition in H. destruct H as [H1 H2].
  split; lra.
Qed.

(** C9, as amended.  For a fixed pointer row [y], among the columns [x]
    for which [(x, y)] is on or inside the circle the mapped x output
    increases strictly with [x]; for every [x] with [(x, y)] outside the
    circle it is the constant 0 of the centre.  The mapped output is the
    first value the handler calls [move_eye] with, after drawing the dot
    at the pointer (inside) or at the centre (outside). *)
Theorem C9_monotone_inside_the_circle (s : state) (y x1 x2 : Z) :
  (inside x1 y = true -> inside x2 y = true -> x1 < x2 ->
   (Float64.to_Q (fst (gaze x1 y)) < Float64.to_Q (fst (gaze x2 y)))%Q /\
   _update_dot_and_send s x1 y
     = (s, (draw_dot (x1, y)
              ++ snd (EyeMech.move_eye (comm s)
                        (fst (gaze x1 y)) (snd (gaze x1 y))))%list) /\
   _update_dot_and_send s x2 y
     = (s, (draw_dot (x2, y)
              ++ snd (EyeMech.move_eye (comm s)
                        (fst (gaze x2 y)) (snd (gaze x2 y))))%list))
  /\
  (inside x1 y = false ->
   fst (gaze x1 y) = S754_zero false /\
   _update_dot_and_send s x1 y
     = (s, (draw_dot (center_x, center_y)
              ++ snd (EyeMech.move_eye (comm s)
                        (S754_zero false) (S754_zero true)))%list)).
Proof.
  split.
  - intros H1 H2 Hlt.
    split.
    + rewrite !gaze_eq, (target_inside _ _ H1), (target_inside _ _ H2).
      cbn [fst snd].
      pose proof (map_axis_bounds x1 (proj1 (inside_bounds _ _ H1)))
        as [_ B1].
      pose proof (map_axis_bounds x2 (proj1 (inside_bounds _ _ H2)))
        as [B2 _].
      pose proof (linear_map_step x1 x2 Hlt) as Hs.
      change Spec.eps with (1 # 35184372088832)%Q in *.
      lra.
    + split.
      * rewrite update_calls at 1. rewrite (target_inside _ _ H1).
        reflexivity.
      * rewrite update_calls at 1. rewrite (target_inside _ _ H2).
        reflexivity.
  - intros H.
    assert (Hg : gaze x1 y = (S754_zero false, S754_zero true)).
    { rewrite gaze_eq, (target_outside _ _ H). vm_compute. reflexivity. }
    rewrite update_calls, Hg, (target_outside _ _ H). split; reflexivity.
Qed.

Lemma C9_monotone_inside_the_circle_witness :
  (Float64.to_Q (fst (gaze 100 250)) < Float64.to_Q (fst (gaze 101 250)))%Q
  /\ fst (gaze 19 200) = S754_zero false.
Proof.
  split.
  - apply (proj1 (C9_monotone_inside_the_circle __init__ 250 100 101));
      [vm_compute; reflexivity | vm_compute; reflexivity | lia].
  - apply (proj2 (C9_monotone_inside_the_circle __init__ 200 19 20)).
    vm_compute. reflexivity.
Defined.

(** On the row of the centre, moving the pointer from column 19 (outside)
    to column 20 (on the circle) takes the mapped x output from 0 down
    to -50. *)
Lemma C9_counterexample :
  19 < 20 /\
  (Float64.to_Q (fst (gaze 19 200)) == 0)%Q /\
  (Float64.to_Q (fst (gaze 20 200)) == -50)%Q /\
  ~ (Float64.to_Q (fst (gaze 19 200))
       <= Float64.to_Q (fst (gaze 20 200)))%Q.
Proof.
  split; [lia|].
  split; [vm_compute; reflexivity|].
  split; [vm_compute; reflexivity|].
  vm_compute. intros H. apply H. reflexivity.
Qed.

(* ------------------------------------------------------------------ *)
(** ** C5: the three encoder operations *)

Lemma round_half_even_nonneg (n d : Z) :
  0 <= n -> 0 < d -> 0 <= Py.round_half_even n d.
Proof.
  intros Hn Hd. unfold Py.round_half_even.
  pose proof (Z.div_pos n d Hn Hd) as Hq.
  destruct (2 * (n mod d) ?= d); [destruct (Z.even (n / d))| |]; lia.
Qed.

Lemma hundredths_nonneg (m : positive) (e : Z) : 0 <= Py.hundredths m e.
Proof.
  unfold Py.hundredths. destruct (0 <=? e) eqn:He.
  - apply Z.leb_le in He.
    pose proof (Z.pow_nonneg 2 e ltac:(lia)). nia.
  - apply Z.leb_gt in He. apply round_half_even_nonneg; [lia|].
    apply Z.pow_pos_nonneg; lia.
Qed.

Lemma fixed2_shape (neg : bool) (h : Z) :
  0 <= h -> two_decimals (Py.sign_str neg ++ Py.fixed2 h).
Proof.
  intros Hh. exists neg, (h / 100), (Py.digit (h mod 100 / 10)),
    (Py.digit (h mod 10)).
  split; [apply Z.div_pos; lia|].
  split; [exists (h mod 100 / 10); split; [|reflexivity]|].
  { pose proof (Z.mod_pos_bound h 100 ltac:(lia)).
    split; [apply Z.div_pos; lia|].
    apply Z.lt_succ_r, Z.div_lt_upper_bound; lia. }
  split; [exists (h mod 10); split; [|reflexivity]|].
  { pose proof (Z.mod_pos_bound h 10 ltac:(lia)). lia. }
  reflexivity.
Qed.

Lemma format_2f_shape (f : float) :
  Float64.is_finite f = true -> two_decimals (Py.format_2f f).
Proof.
  destruct f as [s|s| |s m e]; try discriminate; intros _.
  - apply fixed2_shape. lia.
  - apply fixed2_shape, hundredths_nonneg.
Qed.

Lemma str_int_roundtrip (z : Z) : Py.int_of_str (Py.str_int z) = Some z.
Proof.
  unfold Py.int_of_str, Py.str_int.
  rewrite NilZero.isi.
  - simpl. f_equal. apply DecimalZ.of_to.
  - destruct z; simpl; try discriminate.
    intros H. injection H. apply DecimalPos.Unsigned.to_uint_nonnil.
  - destruct z; simpl; try discriminate.
    intros H. injection H. apply DecimalPos.Unsigned.to_uint_nonnil.
Qed.

Lemma encode_app (a b : string) :
  Py.encode (a ++ b) = (Py.encode a ++ Py.encode b)%list.
Proof.
  unfold Py.encode, list_byte_of_string.
  induction a as [|ch a IH]; [reflexivity|].
  simpl. rewrite IH. reflexivity.
Qed.

(** C5.  Each of the three encoder operations is one call of
    [Communication.send], with the line [EYE <x> <y>], [LID <delta>] or
    [BLINK]: one command reaches the transport, unchanged.  Both
    coordinates of a gaze command are printed with exactly two decimal
    digits; the lid delta is printed as a plain signed integer (a minus
    sign when negative, then the digits of its magnitude), which reads
    back as the same integer; [BLINK] has no argument. *)
Theorem C5_encoder_lines (c : Communication.t) :
  (forall x y : float,
      Float64.is_finite x = true -> Float64.is_finite y = true ->
      EyeMech.move_eye c x y
        = Communication.send c
            ("EYE " ++ Py.format_2f x ++ " " ++ Py.format_2f y)%string /\
      commands (snd (EyeMech.move_eye c x y))
        = [("EYE " ++ Py.format_2f x ++ " " ++ Py.format_2f y)%string] /\
      two_decimals (Py.format_2f x) /\ two_decimals (Py.format_2f y))
  /\
  (forall delta : Z,
      EyeMech.control_lid c delta
        = Communication.send c ("LID " ++ Py.str_int delta)%string /\
      commands (snd (EyeMech.control_lid c delta))
        = [("LID " ++ Py.str_int delta)%string] /\
      Py.int_of_str (Py.str_int delta) = Some delta /\
      Py.str_int delta
        = (Py.sign_str (delta <? 0)%Z ++ Py.str_int (Z.abs delta))%string)
  /\
  (EyeMech.blink c = Communication.send c "BLINK"%string /\
   commands (snd (EyeMech.blink c)) = ["BLINK"%string]).
Proof.
  split; [|split].
  - intros x y Hx Hy.
    split; [reflexivity|].
    split; [apply send_commands|].
    split; apply format_2f_shape; assumption.
  - intros delta.
    split; [reflexivity|].
    split; [apply send_commands|].
    split; [apply str_int_roundtrip|].
    destruct delta; reflexivity.
  - split; [reflexivity | apply send_commands].
Qed.

Lemma C5_encoder_lines_witness :
  commands (snd (EyeMech.move_eye (Communication.__init__ 9600)
                   (Float64.of_Z (-50)) (Float64.of_Z 50)))
    = ["EYE -50.00 50.00"%string] /\
  commands (snd (EyeMech.control_lid (Communication.__init__ 9600) (-3)))
    = ["LID -3"%string].
Proof.
  split.
  - destruct (proj1 (C5_encoder_lines (Communication.__init__ 9600))
               (Float64.of_Z (-50)) (Float64.of_Z 50)) as (_ & H & _);
      [reflexivity | reflexivity |].
    rewrite H. vm_compute. reflexivity.
  - destruct (proj1 (proj2 (C5_encoder_lines (Communication.__init__ 9600)))
               (-3)) as (_ & H & _).
    rewrite H. vm_compute. reflexivity.
Defined.

(* ------------------------------------------------------------------ *)
(** ** C6: send writes only on an open connection *)

(** C6.  [send] writes to the serial port exactly when a connection is
    open, and then writes the bytes of the line followed by one newline;
    when no connection is open nothing is written.  In both cases the call
    returns, the connection object is what it was, and the command is
    echoed on the console. *)
Theorem C6_send_only_when_open (c : Communication.t) (cmd : string) :
  fst (Communication.send c cmd) = c /\
  (forall p : Communication.Serial,
      Communication.ser c = Some p -> Communication.is_open p = true ->
      snd (Communication.send c cmd)
        = [Echo cmd;
           Serial_write (Communication.ser_port p)
             (Py.encode cmd ++ [Byte.x0a])]) /\
  (Communication.connected c = false ->
   snd (Communication.send c cmd) = [Echo cmd] /\
   writes (snd (Communication.send c cmd)) = []) /\
  (writes (snd (Communication.send c cmd)) <> []
   <-> Communication.connected c = true).
Proof.
  split; [reflexivity|].
  unfold Communication.send, Communication.connected. cbn [snd].
  split; [|split].
  - intros p -> ->. rewrite encode_app. reflexivity.
  - destruct (Communication.ser c) as [p|];
      [destruct (Communication.is_open p)|]; try discriminate;
      intros _; split; reflexivity.
  - destruct (Communication.ser c) as [p|];
      [destruct (Communication.is_open p)|]; cbn; split; intros H;
      try discriminate; try reflexivity; try (exfalso; apply H; reflexivity).
Qed.

Lemma C6_send_only_when_open_witness :
  snd (Communication.send (Communication.__init__ 9600) "BLINK")
    = [Echo "BLINK"] /\
  writes (snd (Communication.send (connected_to "COM3") "BLINK"))
    = [("COM3"%string, Py.encode "BLINK" ++ [Byte.x0a])%list].
Proof.
  split.
  - apply (proj1 (proj2 (proj2 (C6_send_only_when_open
                                  (Communication.__init__ 9600) "BLINK")))).
    reflexivity.
  - rewrite (proj1 (proj2 (C6_send_only_when_open
                             (connected_to "COM3") "BLINK"))
               (serial_of "COM3") eq_refl eq_refl).
    reflexivity.
Defined.

(* ------------------------------------------------------------------ *)
(** ** C7: connect *)

(** C7.  On a connection object at the fixed 9600 baud, [connect] first
    closes the port that is open, if any, and then tries to open the named
    port at 9600 baud.  When the port opens, a wait of 2 seconds follows,
    and only then the call returns success, with the port open.  When the
    opening fails, the call returns the pair of [False] and the message of
    the failure, nothing is raised, and the object holds no port: the
    connection is closed. *)
Theorem C7_connect_outcomes (open_error : string -> Z -> option string)
    (c : Communication.t) (port_name : string) :
  Communication.baudrate c = 9600 ->
  let closing :=
    match Communication.ser c with
    | Some p => if Communication.is_open p
                then [Serial_close (Communication.ser_port p)] else []
    | None => []
    end in
  let r := Communication.connect open_error c port_name in
  Communication.baudrate (fst (fst r)) = 9600 /\
  (open_error port_name 9600 = None ->
   snd r = (closing ++ [Serial_open port_name 9600 1 None; Sleep 2])%list /\
   snd (fst r) = (true, (port_name ++ "@9600")%string) /\
   Communication.connected (fst (fst r)) = true /\
   Communication.port (fst (fst r)) = Some port_name) /\
  (forall msg : string,
      open_error port_name 9600 = Some msg ->
      snd r = (closing ++ [Serial_open port_name 9600 1 (Some msg)])%list /\
      snd (fst r) = (false, msg) /\
      Communication.ser (fst (fst r)) = None /\
      Communication.connected (fst (fst r)) = false).
Proof.
  intros Hb closing r. subst closing r.
  unfold Communication.connect. rewrite Hb.
  destruct (open_error port_name 9600) as [e|]; cbn [fst snd].
  - split; [reflexivity|]. split; [discriminate|].
    intros msg Hm. injection Hm as <-.
    repeat split.
  - split; [reflexivity|]. split; [|discriminate].
    intros _. repeat split.
Qed.

Lemma C7_connect_outcomes_witness :
  snd (Communication.connect (fun _ _ => Some "busy"%string)
         (connected_to "COM3") "COM4")
    = [Serial_close "COM3"; Serial_open "COM4" 9600 1 (Some "busy"%string)]
  /\
  snd (Communication.connect (fun _ _ => None)
         (Communication.__init__ 9600) "COM4")
    = [Serial_open "COM4" 9600 1 None; Sleep 2].
Proof.
  split.
  - apply (proj2 (proj2 (C7_connect_outcomes (fun _ _ => Some "busy"%string)
                           (connected_to "COM3") "COM4" eq_refl))
             "busy"%string eq_refl).
  - apply (proj1 (proj2 (C7_connect_outcomes (fun _ _ => None)
                           (Communication.__init__ 9600) "COM4" eq_refl))
             eq_refl).
Defined.

(* ------------------------------------------------------------------ *)
(** ** C8 and C10: the wheel *)

Lemma with_comm_commands (s : state) (r : Communication.t * list effect) :
  commands (snd (with_comm s r)) = commands (snd r).
Proof. reflexivity. Qed.

Lemma wheel_delta (s : state) (d : Z) (num : option Z) :
  d <> 0 ->
  commands (snd (_on_wheel s (Some d) num))
    = [("LID " ++ Py.str_int (d / 120))%string].
Proof.
  intros Hd. unfold _on_wheel. cbn [getattr_delta].
  apply Z.eqb_neq in Hd. rewrite Hd. cbn [negb].
  rewrite with_comm_commands. apply send_commands.
Qed.

Lemma no_delta (delta : option Z) :
  delta = None \/ delta = Some 0 -> getattr_delta delta = 0.
Proof. intros [-> | ->]; reflexivity. Qed.

Lemma wheel_button (s : state) (delta : option Z) (n : Z) :
  delta = None \/ delta = Some 0 ->
  n = 4 \/ n = 5 ->
  commands (snd (_on_wheel s delta (Some n)))
    = [("LID " ++ Py.str_int (if (n =? 4)%Z then 1%Z else (-1)%Z))%string].
Proof.
  intros Hd Hn. unfold _on_wheel. rewrite (no_delta delta Hd).
  change (negb (0 =? 0)) with false. cbv iota.
  destruct Hn as [-> | ->]; cbv [Z.eqb Pos.eqb orb];
    rewrite with_comm_commands; apply send_commands.
Qed.

Lemma wheel_nothing (s : state) (delta num : option Z) :
  delta = None \/ delta = Some 0 ->
  (forall n, num = Some n -> n <> 4 /\ n <> 5) ->
  _on_wheel s delta num = (s, []).
Proof.
  intros Hd Hn. unfold _on_wheel. rewrite (no_delta delta Hd).
  change (negb (0 =? 0)) with false. cbv iota.
  destruct num as [n|]; [|reflexivity].
  destruct (Hn n eq_refl) as [H4 H5].
  apply Z.eqb_neq in H4, H5. rewrite H4, H5. reflexivity.
Qed.

(** C8, as amended.  A wheel event with a non-zero delta sends exactly
    one adjust-lid command, with the step [floor (delta / 120)], which is
    one step per 120 units when the delta is a multiple of 120; an event
    without delta (or with delta 0) and with button number 4 or 5 sends
    exactly one, [LID 1] for 4 and [LID -1] for 5; an event without delta
    (or with delta 0) and with another button number, or none, sends no
    command.  In particular a delta of 240 sends [LID 2], an "up" notch
    [LID 1] and a "down" notch [LID -1]. *)
Theorem C8_wheel_steps (s : state) :
  (forall (d : Z) (num : option Z),
      d <> 0 ->
      commands (snd (_on_wheel s (Some d) num))
        = [("LID " ++ Py.str_int (d / 120))%string]) /\
  (forall (k : Z) (num : option Z),
      k <> 0 ->
      commands (snd (_on_wheel s (Some (120 * k)) num))
        = [("LID " ++ Py.str_int k)%string]) /\
  (forall delta : option Z,
      delta = None \/ delta = Some 0 ->
      commands (snd (_on_wheel s delta (Some 4))) = ["LID 1"%string] /\
      commands (snd (_on_wheel s delta (Some 5))) = ["LID -1"%string]) /\
  (forall delta num : option Z,
      delta = None \/ delta = Some 0 ->
      (forall n, num = Some n -> n <> 4 /\ n <> 5) ->
      commands (snd (_on_wheel s delta num)) = []) /\
  (forall num, commands (snd (_on_wheel s (Some 240) num))
               = ["LID 2"%string]).
Proof.
  split; [|split; [|split; [|split]]].
  - intros d num Hd. apply wheel_delta, Hd.
  - intros k num Hk. rewrite wheel_delta by lia.
    replace (120 * k / 120) with k; [reflexivity|].
    symmetry. rewrite Z.mul_comm. apply Z.div_mul. lia.
  - intros delta Hd. split.
    + rewrite (wheel_button s delta 4 Hd (or_introl eq_refl)). reflexivity.
    + rewrite (wheel_button s delta 5 Hd (or_intror eq_refl)). reflexivity.
  - intros delta num Hd Hn. rewrite (wheel_nothing s delta num Hd Hn).
    reflexivity.
  - intros num. rewrite wheel_delta by lia. reflexivity.
Qed.

Lemma C8_wheel_steps_witness :
  commands (snd (_on_wheel __init__ (Some (-360)) None)) = ["LID -3"%string]
  /\ commands (snd (_on_wheel __init__ (Some 0) (Some 5))) = ["LID -1"%string]
  /\ commands (snd (_on_wheel __init__ None (Some 3))) = [].
Proof.
  split; [|split].
  - apply (proj1 (proj2 (C8_wheel_steps __init__)) (-3) None). lia.
  - apply (proj1 (proj2 (proj2 (C8_wheel_steps __init__))) (Some 0)).
    right. reflexivity.
  - apply (proj1 (proj2 (proj2 (proj2 (C8_wheel_steps __init__))))
             None (Some 3)).
    + left. reflexivity.
    + intros n H. injection H as <-. lia.
Defined.

(** A wheel event with delta 0 and no button number sends nothing, where
    the claim has exactly one command for every wheel gesture. *)
Lemma C8_counterexample :
  commands (snd (_on_wheel __init__ (Some 0) None)) = [] /\
  List.length (commands (snd (_on_wheel __init__ (Some 0) None))) <> 1%nat.
Proof. split; [reflexivity | vm_compute; discriminate]. Qed.

(** C10.  A wheel event whose delta is not zero and is strictly between
    -120 and 120 still sends a LID command, with the step
    [floor (delta / 120)]: [LID 0] for a delta in (0, 120) and [LID -1]
    for a delta in (-120, 0).  A wheel event with delta 0 and a button
    number other than 4 and 5 sends no command. *)
Theorem C10_small_wheel_deltas (s : state) (d : Z) (num : option Z) :
  (d <> 0 -> -120 < d < 120 ->
   commands (snd (_on_wheel s (Some d) num))
     = [("LID " ++ Py.str_int (d / 120))%string] /\
   (0 < d -> commands (snd (_on_wheel s (Some d) num)) = ["LID 0"%string]) /\
   (d < 0 -> commands (snd (_on_wheel s (Some d) num)) = ["LID -1"%string]))
  /\
  ((forall n, num = Some n -> n <> 4 /\ n <> 5) ->
   commands (snd (_on_wheel s (Some 0) num)) = [] /\
   _on_wheel s (Some 0) num = (s, [])).
Proof.
  split.
  - intros Hd Hr. rewrite wheel_delta by exact Hd.
    split; [reflexivity|]. split; intros Hs.
    + replace (d / 120) with 0; [reflexivity|].
      symmetry. apply Z.div_small. lia.
    + replace (d / 120) with (-1); [reflexivity|].
      apply (Z.div_unique d 120 (-1) (d + 120)); lia.
  - intros Hn.
    rewrite (wheel_nothing s (Some 0) num (or_intror eq_refl) Hn).
    split; reflexivity.
Qed.

Lemma C10_small_wheel_deltas_witness :
  commands (snd (_on_wheel __init__ (Some 60) None)) = ["LID 0"%string] /\
  commands (snd (_on_wheel __init__ (Some (-1)) None)) = ["LID -1"%string] /\
  commands (snd (_on_wheel __init__ (Some 0) (Some 1))) = [].
Proof.
  split; [|split].
  - apply (proj1 (C10_small_wheel_deltas __init__ 60 None)); lia.
  - apply (proj1 (C10_small_wheel_deltas __init__ (-1) None)); lia.
  - apply (proj2 (C10_small_wheel_deltas __init__ 0 (Some 1))).
    intros n H. injection H as <-. lia.
Defined.

(* ------------------------------------------------------------------ *)
(** ** C2 and C3: the throttle of the drag *)

Lemma press_state (s : state) (x y : Z) :
  fst (_on_left_press s x y)
    = {| comm := comm s; dragging := true;
         last_send_time := last_send_time s |}.
Proof. unfold _on_left_press. apply update_state. Qed.

Lemma press_commands (s : state) (x y : Z) :
  commands (snd (_on_left_press s x y)) = [eye_line (gaze x y)].
Proof. unfold _on_left_press. apply update_commands. Qed.

Lemma drag_emits (now : Q) (s : state) (x y : Z) :
  dragging s = true -> apart (last_send_time s) now ->
  fst (_on_drag now s x y)
    = {| comm := comm s; dragging := true; last_send_time := now |} /\
  commands (snd (_on_drag now s x y)) = [eye_line (gaze x y)].
Proof.
  intros Hd Ha. unfold _on_drag. rewrite Hd. cbn [negb].
  apply Qle_bool_iff in Ha. rewrite Ha.
  pose proof (update_state s x y) as Hs.
  pose proof (update_commands s x y) as Hc.
  destruct (_update_dot_and_send s x y) as [s1 out]. cbn [fst snd] in *.
  subst s1. rewrite Hd. split; [reflexivity | exact Hc].
Qed.

Lemma drag_drops (now : Q) (s : state) (x y : Z) :
  dragging s = false \/ ~ apart (last_send_time s) now ->
  _on_drag now s x y = (s, []).
Proof.
  intros H. unfold _on_drag.
  destruct (dragging s); cbn [negb]; [|reflexivity].
  destruct H as [H|H]; [discriminate|].
  destruct (Qle_bool send_interval (now - last_send_time s)) eqn:E;
    [|reflexivity].
  exfalso. apply H. apply Qle_bool_iff, E.
Qed.

(** What one pointer move does: it sends and records the clock reading,
    or it does nothing at all. *)
Lemma drag_cases (now : Q) (s : state) (x y : Z) :
  (dragging s = true /\ apart (last_send_time s) now /\
   fst (_on_drag now s x y)
     = {| comm := comm s; dragging := true; last_send_time := now |} /\
   commands (snd (_on_drag now s x y)) = [eye_line (gaze x y)])
  \/ _on_drag now s x y = (s, []).
Proof.
  destruct (dragging s) eqn:Hd; [|right; apply drag_drops; left; exact Hd].
  destruct (Qle_bool send_interval (now - last_send_time s)) eqn:E.
  - left. apply Qle_bool_iff in E.
    destruct (drag_emits now s x y Hd E) as [H1 H2]. repeat split; assumption.
  - right. apply drag_drops. right. intros H.
    apply Qle_bool_iff in H. unfold apart in H. congruence.
Qed.

Lemma other_events_keep_time (now : Q) (s : state) (ev : event) :
  (forall x y, ev <> B1_Motion x y) ->
  last_send_time (fst (step now s ev)) = last_send_time s.
Proof.
  intros H. destruct ev as [x y|x y| | |delta num]; cbn [step].
  - rewrite press_state. reflexivity.
  - exfalso. apply (H x y). reflexivity.
  - reflexivity.
  - reflexivity.
  - unfold _on_wheel.
    destruct (negb (getattr_delta delta =? 0)); [reflexivity|].
    destruct num as [n|]; [destruct ((n =? 4) || (n =? 5))|]; reflexivity.
Qed.

Lemma transcript_cons (s : state) (now : Q) (ev : event)
    (evs : list (Q * event)) :
  transcript s ((now, ev) :: evs)
    = (now, ev, snd (step now s ev)) :: transcript (fst (step now s ev)) evs.
Proof. cbn [transcript]. destruct (step now s ev). reflexivity. Qed.












(** C3 on the program.  A pointer press enters the dragging state and
    sends the mapped position at once, but it leaves the last-send time as
    it was: after a press at clock reading 1000 on a fresh interface, the
    recorded time is still 0, and a move one millisecond later sends a
    second EYE command instead of being dropped. *)
Theorem C3_press_leaves_last_send_time :
  (forall (now : Q) (s : state) (x y : Z),
      dragging (fst (step now s (Button_1 x y))) = true /\
      commands (snd (step now s (Button_1 x y))) = [eye_line (gaze x y)] /\
      last_send_time (fst (step now s (Button_1 x y))) = last_send_time s) /\
  last_send_time (run __init__ [(1000, Button_1 200 200)]%Q) = 0%Q /\
  commands (trace __init__ [(1000, Button_1 200 200);
                            (1000 + (1 # 1000), B1_Motion 210 200)]%Q)
    = ["EYE 0.00 -0.00"; "EYE 2.78 -0.00"]%string.
Proof.
  split.
  - intros now s x y. cbn [step]. rewrite press_state, press_commands.
    repeat split.
  - split; vm_compute; reflexivity.
Qed.

(* ================================================================== *)
(** * Further properties of the handlers *)

(** ** One step of the event loop, in normal form *)

Lemma update_effects (s : state) (x y : Z) :
  snd (_update_dot_and_send s x y)
    = (draw_dot (target x y)
         ++ snd (Communication.send (comm s) (eye_line (gaze x y))))%list.
Proof.
  unfold _update_dot_and_send. rewrite gaze_eq.
  destruct (target x y) as [tx ty]. reflexivity.
Qed.

Lemma drag_effects (now : Q) (s : state) (x y : Z) :
  snd (_on_drag now s x y) = [] \/
  snd (_on_drag now s x y) = snd (_update_dot_and_send s x y).
Proof.
  unfold _on_drag. destruct (negb (dragging s)); [left; reflexivity|].
  destruct (Qle_bool send_interval (now - last_send_time s));
    [|left; reflexivity].
  right. destruct (_update_dot_and_send s x y). reflexivity.
Qed.

Lemma step_comm (now : Q) (s : state) (ev : event) :
  comm (fst (step now s ev)) = comm s.
Proof.
  destruct ev as [x y|x y| | |delta num]; cbn [step].
  - rewrite press_state. reflexivity.
  - destruct (drag_cases now s x y) as [(_ & _ & H & _) | H]; rewrite H;
      reflexivity.
  - reflexivity.
  - reflexivity.
  - unfold _on_wheel.
    destruct (negb (getattr_delta delta =? 0)); [reflexivity|].
    destruct num as [n|]; [destruct ((n =? 4) || (n =? 5))|]; reflexivity.
Qed.

(** What a handler does is nothing, or a move of the dot followed by the
    sending of an EYE line, or the sending of a LID line or of BLINK. *)
Lemma step_effects (now : Q) (s : state) (ev : event) :
  snd (step now s ev) = [] \/
  (exists x y : Z,
      snd (step now s ev)
        = (draw_dot (target x y)
             ++ snd (Communication.send (comm s) (eye_line (gaze x y))))%list)
  \/
  (exists cmd : string,
      ((exists d : Z, cmd = ("LID " ++ Py.str_int d)%string)
       \/ cmd = "BLINK"%string) /\
      snd (step now s ev) = snd (Communication.send (comm s) cmd)).
Proof.
  destruct ev as [x y|x y| | |delta num]; cbn [step].
  - right. left. exists x, y. unfold _on_left_press.
    rewrite update_effects. reflexivity.
  - destruct (drag_effects now s x y) as [H|H]; [left; exact H|].
    right. left. exists x, y. rewrite H. apply update_effects.
  - left. reflexivity.
  - right. right. exists "BLINK"%string. split; [right|]; reflexivity.
  - unfold _on_wheel.
    destruct (negb (getattr_delta delta =? 0)).
    + right. right. eexists. split; [left; eexists; reflexivity|reflexivity].
    + destruct num as [n|]; [|left; reflexivity].
      destruct ((n =? 4) || (n =? 5)); [|left; reflexivity].
      right. right. eexists. split; [left; eexists; reflexivity|reflexivity].
Qed.

Lemma trace_cons (s : state) (now : Q) (ev : event) (evs : list (Q * event)) :
  trace s ((now, ev) :: evs)
    = (snd (step now s ev) ++ trace (fst (step now s ev)) evs)%list.
Proof. unfold trace. rewrite transcript_cons. reflexivity. Qed.

Lemma run_comm (evs : list (Q * event)) :
  forall s : state, comm (run s evs) = comm s.
Proof.
  induction evs as [|[now ev] evs IH]; intros s; [reflexivity|].
  cbn [run]. rewrite IH. apply step_comm.
Qed.

(** A property of traces that holds of what each handler does on a given
    connection, and is kept by concatenation, holds of every run. *)
Lemma trace_rect_comm (c : Communication.t) (P : list effect -> Prop) :
  P [] ->
  (forall a b, P a -> P b -> P (a ++ b)%list) ->
  (forall now s ev, comm s = c -> P (snd (step now s ev))) ->
  forall (evs : list (Q * event)) (s : state), comm s = c -> P (trace s evs).
Proof.
  intros Hnil Happ Hstep.
  induction evs as [|[now ev] evs IH]; intros s Hs; [exact Hnil|].
  rewrite trace_cons. apply Happ; [apply Hstep, Hs|].
  apply IH. rewrite step_comm. exact Hs.
Qed.

(* ------------------------------------------------------------------ *)
(** ** X1: the gaze coordinates stay in range *)

Lemma target_on_pixels (x y : Z) :
  center_x - radius <= fst (target x y) <= center_x + radius /\
  center_y - radius <= snd (target x y) <= center_y + radius.
Proof.
  destruct (inside x y) eqn:H.
  - rewrite (target_inside x y H). apply inside_bounds, H.
  - rewrite (target_outside x y H). vm_compute. repeat split; discriminate.
Qed.

Lemma map_axis_range :
  forallb
    (fun t =>
       let f := map_axis t center_x radius in
       Float64.is_finite f
       && Qle_bool (-50) (Float64.to_Q f) && Qle_bool (Float64.to_Q f) 50
       && (String.length (Py.format_2f f) <=? 6)%nat
       && (String.length (Py.format_2f (Float64.opp f)) <=? 6)%nat)
    pixels = true.
Proof. vm_compute. reflexivity. Qed.

Lemma string_length_app (a b : string) :
  String.length (a ++ b) = (String.length a + String.length b)%nat.
Proof. induction a as [|ch a IH]; [reflexivity|]. simpl. rewrite IH. reflexivity. Qed.

Lemma opp_finite (f : float) :
  Float64.is_finite (Float64.opp f) = Float64.is_finite f.
Proof. destruct f; reflexivity. Qed.

Lemma eye_line_length (x y : Z) :
  (String.length (eye_line (gaze x y)) <= 17)%nat /\
  Float64.is_finite (fst (gaze x y)) = true /\
  Float64.is_finite (snd (gaze x y)) = true /\
  (-50 <= Float64.to_Q (fst (gaze x y)) <= 50)%Q /\
  (-50 <= Float64.to_Q (snd (gaze x y)) <= 50)%Q.
Proof.
  rewrite gaze_eq. cbn [fst snd].
  destruct (target_on_pixels x y) as [Hx Hy].
  pose proof (on_pixels _ _ map_axis_range Hx) as Ax.
  pose proof (on_pixels _ _ map_axis_range Hy) as Ay.
  cbv zeta in Ax, Ay. change center_y with center_x.
  repeat (apply andb_true_iff in Ax; destruct Ax as [Ax ?]).
  repeat (apply andb_true_iff in Ay; destruct Ay as [Ay ?]).
  repeat match goal with
         | H : Qle_bool _ _ = true |- _ => apply Qle_bool_iff in H
         | H : (_ <=? _)%nat = true |- _ => apply Nat.leb_le in H
         end.
  split.
  { unfold eye_line. cbn [fst snd].
    rewrite !string_length_app. cbn [String.length]. lia. }
  split; [assumption|].
  split; [rewrite opp_finite; assumption|].
  split; [split; assumption|].
  rewrite to_Q_opp. split; lra.
Qed.

(** X1.  Whatever the pointer position, inside the circle or not, the
    handler calls [move_eye] with two finite doubles between -50 and 50,
    and the one command it sends, the EYE line of these two values, has at
    most 17 characters; along every run, every EYE line sent has at most
    17 characters. *)
Theorem X1_gaze_in_range (s : state) (x y : Z) :
  _update_dot_and_send s x y
    = (s, (draw_dot (target x y)
             ++ snd (EyeMech.move_eye (comm s)
                       (fst (gaze x y)) (snd (gaze x y))))%list) /\
  Float64.is_finite (fst (gaze x y)) = true /\
  Float64.is_finite (snd (gaze x y)) = true /\
  (-50 <= Float64.to_Q (fst (gaze x y)) <= 50)%Q /\
  (-50 <= Float64.to_Q (snd (gaze x y)) <= 50)%Q /\
  (String.length (eye_line (gaze x y)) <= 17)%nat /\
  commands (snd (_update_dot_and_send s x y)) = [eye_line (gaze x y)] /\
  (forall evs : list (Q * event),
      Forall (fun cmd => String.prefix "EYE " cmd = true ->
                         (String.length cmd <= 17)%nat)
        (commands (trace s evs))).
Proof.
  destruct (eye_line_length x y) as (L & F1 & F2 & R1 & R2).
  split; [apply update_calls|].
  repeat (split; [assumption|]).
  split; [apply update_commands|].
  intros evs.
  apply (trace_rect_comm (comm s)
           (fun tr => Forall (fun cmd => String.prefix "EYE " cmd = true ->
                                         (String.length cmd <= 17)%nat)
                        (commands tr))); [constructor| | |reflexivity].
  - intros a b Ha Hb. rewrite commands_app. apply Forall_app.
    split; assumption.
  - intros now s' ev _.
    destruct (step_effects now s' ev)
      as [H | [(x' & y' & H) | (cmd & Hc & H)]]; rewrite H.
    + constructor.
    + rewrite commands_app, send_commands.
      cbn [draw_dot commands flat_map List.app].
      constructor; [|constructor].
      intros _. apply (eye_line_length x' y').
    + rewrite send_commands. constructor; [|constructor].
      destruct Hc as [[d ->] | ->]; cbn; discriminate.
Qed.

(* ------------------------------------------------------------------ *)
(** ** X2 and X3: the dot on the canvas *)

Lemma Forall_on_canvas_send (c : Communication.t) (cmd : string) :
  Forall on_canvas (snd (Communication.send c cmd)).
Proof.
  unfold Communication.send. cbn [snd].
  destruct (Communication.ser c) as [p|];
    [destruct (Communication.is_open p)|]; repeat constructor.
Qed.

(** X2.  Every oval a run draws lies within the canvas, wherever the
    pointer goes (a drag may leave the window): the dot is drawn around
    the pointer when it is on or inside the circle and around the centre
    otherwise. *)
Theorem X2_dot_stays_on_canvas (s : state) (evs : list (Q * event)) :
  Forall on_canvas (trace s evs).
Proof.
  apply (trace_rect_comm (comm s) (Forall on_canvas)); [constructor| | |reflexivity].
  - intros a b Ha Hb. apply Forall_app. split; assumption.
  - intros now s' ev _.
    destruct (step_effects now s' ev) as [H | [(x & y & H) | (cmd & _ & H)]];
      rewrite H.
    + constructor.
    + apply Forall_app. split; [|apply Forall_on_canvas_send].
      destruct (target_on_pixels x y) as [Hx Hy].
      change radius with 180 in *. change center_x with 200 in *.
      change center_y with 200 in *.
      unfold draw_dot. repeat constructor; unfold canvas_size; lia.
    + apply Forall_on_canvas_send.
Qed.

Lemma canvas_after_app (items : list canvas_item) (a b : list effect) :
  canvas_after items (a ++ b) = canvas_after (canvas_after items a) b.
Proof. unfold canvas_after. apply fold_left_app. Qed.

Lemma canvas_after_send (items : list canvas_item) (c : Communication.t)
    (cmd : string) :
  canvas_after items (snd (Communication.send c cmd)) = items.
Proof.
  unfold Communication.send. cbn [snd].
  destruct (Communication.ser c) as [p|];
    [destruct (Communication.is_open p)|]; reflexivity.
Qed.

Lemma dots_after_delete (items : list canvas_item) :
  dots (filter (fun it => negb (String.eqb (fst it) "click_dot")) items) = [].
Proof.
  unfold dots. induction items as [|it items IH]; [reflexivity|].
  cbn [filter]. destruct (String.eqb (fst it) "click_dot") eqn:E;
    cbn [negb]; [exact IH|].
  cbn [filter]. rewrite E. exact IH.
Qed.

Lemma others_after_delete (items : list canvas_item) :
  filter (fun it => negb (String.eqb (fst it) "click_dot"))
    (filter (fun it => negb (String.eqb (fst it) "click_dot")) items)
  = filter (fun it => negb (String.eqb (fst it) "click_dot")) items.
Proof.
  induction items as [|it items IH]; [reflexivity|].
  cbn [filter]. destruct (String.eqb (fst it) "click_dot") eqn:E;
    cbn [negb]; [exact IH|].
  cbn [filter]. rewrite E. cbn [negb]. rewrite IH. reflexivity.
Qed.

Lemma canvas_after_draw (items : list canvas_item) (p : Z * Z) :
  dots (canvas_after items (draw_dot p))
    = [("click_dot"%string, (fst p - 5, snd p - 5, fst p + 5, snd p + 5))] /\
  filter (fun it => negb (String.eqb (fst it) "click_dot"))
    (canvas_after items (draw_dot p))
  = filter (fun it => negb (String.eqb (fst it) "click_dot")) items.
Proof.
  unfold draw_dot, canvas_after. cbn [fold_left canvas_step].
  split.
  - unfold dots. rewrite filter_app. fold (dots
      (filter (fun it => negb (String.eqb (fst it) "click_dot")) items)).
    rewrite dots_after_delete. reflexivity.
  - rewrite filter_app, others_after_delete. cbn. apply app_nil_r.
Qed.

(** X3.  On the canvas, a run never leaves more than one item tagged
    [click_dot], and it leaves every other item (the radar drawing) as it
    was: each new dot replaces the previous one. *)
Theorem X3_one_dot_on_canvas (s : state) (evs : list (Q * event))
    (items : list canvas_item) :
  (List.length (dots items) <= 1)%nat ->
  (List.length (dots (canvas_after items (trace s evs))) <= 1)%nat /\
  filter (fun it => negb (String.eqb (fst it) "click_dot"))
    (canvas_after items (trace s evs))
  = filter (fun it => negb (String.eqb (fst it) "click_dot")) items.
Proof.
  revert items.
  apply (trace_rect_comm (comm s)
           (fun tr => forall items,
                (List.length (dots items) <= 1)%nat ->
                (List.length (dots (canvas_after items tr)) <= 1)%nat /\
                filter (fun it => negb (String.eqb (fst it) "click_dot"))
                  (canvas_after items tr)
                = filter (fun it => negb (String.eqb (fst it) "click_dot"))
                    items));
    [| | |reflexivity].
  - intros items H. split; [exact H | reflexivity].
  - intros a b Ha Hb items H. rewrite canvas_after_app.
    destruct (Ha items H) as [A1 A2].
    destruct (Hb (canvas_after items a) A1) as [B1 B2].
    split; [exact B1 | rewrite B2; exact A2].
  - intros now s' ev _ items Hi.
    destruct (step_effects now s' ev) as [H | [(x & y & H) | (cmd & _ & H)]];
      rewrite H.
    + split; [exact Hi | reflexivity].
    + rewrite canvas_after_app, canvas_after_send.
      destruct (canvas_after_draw items (target x y)) as [D1 D2].
      rewrite D1. split; [cbn; lia | exact D2].
    + rewrite canvas_after_send. split; [exact Hi | reflexivity].
Qed.

Lemma X3_one_dot_on_canvas_witness :
  (List.length
     (dots (canvas_after sample_canvas
              (trace __init__ (drag_session 5 200 200 sample_moves))))
   <= 1)%nat.
Proof.
  apply (proj1 (X3_one_dot_on_canvas __init__
                  (drag_session 5 200 200 sample_moves)
                  sample_canvas ltac:(vm_compute; lia))).
Defined.

(* ------------------------------------------------------------------ *)
(** ** X4 and X5: the handlers and the serial link *)

Lemma send_never_touches_link (c : Communication.t) (cmd : string) :
  Forall (fun e => touches_link e = false) (snd (Communication.send c cmd)).
Proof.
  unfold Communication.send. cbn [snd].
  destruct (Communication.ser c) as [p|];
    [destruct (Communication.is_open p)|]; repeat constructor.
Qed.

(** X4.  No pointer, wheel or click event ever opens or closes a port or
    waits: along every run the connection object is left as it was, and
    the only effects on the link are writes. *)
Theorem X4_events_leave_the_link (s : state) (evs : list (Q * event)) :
  comm (run s evs) = comm s /\
  Forall (fun e => touches_link e = false) (trace s evs).
Proof.
  split; [apply run_comm|].
  apply (trace_rect_comm (comm s)
           (Forall (fun e => touches_link e = false)));
    [constructor| | |reflexivity].
  - intros a b Ha Hb. apply Forall_app. split; assumption.
  - intros now s' ev _.
    destruct (step_effects now s' ev) as [H | [(x & y & H) | (cmd & _ & H)]];
      rewrite H.
    + constructor.
    + apply Forall_app. split; [repeat constructor|].
      apply send_never_touches_link.
    + apply send_never_touches_link.
Qed.

Lemma writes_app (a b : list effect) :
  writes (a ++ b) = (writes a ++ writes b)%list.
Proof. unfold writes. apply flat_map_app. Qed.

Lemma wire_app (c : Communication.t) (a b : list string) :
  wire c (a ++ b) = (wire c a ++ wire c b)%list.
Proof.
  unfold wire. destruct (Communication.ser c) as [p|];
    [destruct (Communication.is_open p)|]; try reflexivity.
  apply map_app.
Qed.

Lemma send_wire (c : Communication.t) (cmd : string) :
  writes (snd (Communication.send c cmd)) = wire c [cmd].
Proof.
  unfold Communication.send, wire. cbn [snd].
  destruct (Communication.ser c) as [p|];
    [destruct (Communication.is_open p)|]; try reflexivity.
  cbn. rewrite encode_app. reflexivity.
Qed.

(** X5.  Along every run, the bytes written to the serial port are the
    commands of the run, in order, each followed by one line feed, all on
    the port the connection holds; when no port is open nothing is
    written, and the commands are only echoed. *)
Theorem X5_bytes_on_the_wire (s : state) (evs : list (Q * event)) :
  writes (trace s evs) = wire (comm s) (commands (trace s evs)) /\
  (Communication.connected (comm s) = false -> writes (trace s evs) = []).
Proof.
  assert (H : writes (trace s evs) = wire (comm s) (commands (trace s evs))).
  { apply (trace_rect_comm (comm s)
             (fun tr => writes tr = wire (comm s) (commands tr)));
      [| | |reflexivity].
    - unfold wire. cbn. destruct (Communication.ser (comm s)) as [p|];
        [destruct (Communication.is_open p)|]; reflexivity.
    - intros a b Ha Hb.
      rewrite writes_app, commands_app, wire_app, Ha, Hb. reflexivity.
    - intros now s' ev Hc.
      destruct (step_effects now s' ev)
        as [E | [(x & y & E) | (cmd & _ & E)]]; rewrite E, ?Hc.
      + unfold wire. cbn. destruct (Communication.ser (comm s)) as [p|];
          [destruct (Communication.is_open p)|]; reflexivity.
      + rewrite writes_app, commands_app, send_commands, send_wire.
        reflexivity.
      + rewrite send_commands, send_wire. reflexivity. }
  split; [exact H|].
  intros Hn. rewrite H. unfold wire, Communication.connected in *.
  destruct (Communication.ser (comm s)) as [p|]; [|reflexivity].
  rewrite Hn. reflexivity.
Qed.

Lemma X5_bytes_on_the_wire_witness :
  writes (trace __init__ [(1000%Q, Button_1 200 20); (1001%Q, Button_3)]) = [].
Proof.
  apply (proj2 (X5_bytes_on_the_wire __init__
                  [(1000%Q, Button_1 200 20); (1001%Q, Button_3)])).
  reflexivity.
Defined.

(* ------------------------------------------------------------------ *)
(** ** X6 to X9: the drag state along a run *)

Lemma step_dragging (now : Q) (s : state) (ev : event) :
  dragging (fst (step now s ev))
    = match ev with
      | Button_1 _ _ => true
      | ButtonRelease_1 => false
      | _ => dragging s
      end.
Proof.
  destruct ev as [x y|x y| | |delta num]; cbn [step].
  - rewrite press_state. reflexivity.
  - destruct (drag_cases now s x y) as [(Hd & _ & H & _) | H]; rewrite H;
      [rewrite Hd|]; reflexivity.
  - reflexivity.
  - reflexivity.
  - unfold _on_wheel.
    destruct (negb (getattr_delta delta =? 0)); [reflexivity|].
    destruct num as [n|]; [destruct ((n =? 4) || (n =? 5))|]; reflexivity.
Qed.

(** X6.  While the button is not held, pointer moves do nothing: in a run
    that starts with the button up and has no press, no EYE command is
    sent (every command is a LID line or BLINK), the button stays up and
    the last-send time is not changed. *)
Theorem X6_no_eye_without_press (evs : list (Q * event)) :
  forall s : state,
    dragging s = false ->
    (forall t x y, ~ In (t, Button_1 x y) evs) ->
    dragging (run s evs) = false /\
    last_send_time (run s evs) = last_send_time s /\
    move_emit_times (transcript s evs) = [] /\
    Forall (fun cmd => (exists d : Z, cmd = ("LID " ++ Py.str_int d)%string)
                       \/ cmd = "BLINK"%string)
      (commands (trace s evs)).
Proof.
  induction evs as [|[now ev] evs IH]; intros s Hd Hn.
  - split; [exact Hd|]. split; [reflexivity|]. split; [reflexivity|].
    constructor.
  - assert (Hn' : forall t x y, ~ In (t, Button_1 x y) evs).
    { intros t x y H. apply (Hn t x y). right. exact H. }
    assert (Hd' : dragging (fst (step now s ev)) = false).
    { rewrite step_dragging. destruct ev as [x y| | | |]; try assumption;
        try reflexivity.
      exfalso. apply (Hn now x y). left. reflexivity. }
    destruct (IH (fst (step now s ev)) Hd' Hn') as (I1 & I2 & I3 & I4).
    assert (Hstep :
              last_send_time (fst (step now s ev)) = last_send_time s /\
              (forall x y, ev = B1_Motion x y -> snd (step now s ev) = []) /\
              Forall (fun cmd =>
                        (exists d : Z, cmd = ("LID " ++ Py.str_int d)%string)
                        \/ cmd = "BLINK"%string)
                (commands (snd (step now s ev)))).
    { destruct ev as [x y|x y| | |delta num].
      - exfalso. apply (Hn now x y). left. reflexivity.
      - cbn [step]. rewrite (drag_drops now s x y (or_introl Hd)).
        split; [reflexivity|]. split; [reflexivity | constructor].
      - split; [reflexivity|]. split; [discriminate | constructor].
      - split; [reflexivity|]. split; [discriminate|].
        cbn [step]. unfold _on_right_click. rewrite with_comm_commands.
        unfold EyeMech.blink. rewrite send_commands.
        constructor; [right; reflexivity | constructor].
      - split; [apply other_events_keep_time; intros; discriminate|].
        split; [discriminate|].
        destruct (step_effects now s (MouseWheel delta num))
          as [E | [(x & y & E) | (cmd & Hc & E)]].
        + rewrite E. constructor.
        + exfalso. cbn [step] in E. unfold _on_wheel in E.
          destruct (negb (getattr_delta delta =? 0));
            [|destruct num as [n|]; [destruct ((n =? 4) || (n =? 5))|]];
            cbn in E; discriminate.
        + rewrite E, send_commands. constructor; [exact Hc | constructor]. }
    destruct Hstep as (A & B & C).
    cbn [run]. rewrite trace_cons, transcript_cons, commands_app.
    unfold move_emit_times. cbn [flat_map].
    fold (move_emit_times (transcript (fst (step now s ev)) evs)).
    rewrite I3, I2, A. split; [exact I1|]. split; [reflexivity|].
    split.
    + destruct ev as [x y|x y| | |delta num]; try reflexivity.
      rewrite (B x y eq_refl). reflexivity.
    + apply Forall_app. split; assumption.
Qed.

Lemma X6_no_eye_without_press_witness :
  commands (trace __init__
              [(1%Q, B1_Motion 100 100); (2%Q, Button_3);
               (3%Q, B1_Motion 120 100); (4%Q, MouseWheel (Some 120) None)])
    = ["BLINK"; "LID 1"]%string /\
  dragging (run __init__
              [(1%Q, B1_Motion 100 100); (2%Q, Button_3);
               (3%Q, B1_Motion 120 100); (4%Q, MouseWheel (Some 120) None)])
    = false.
Proof.
  split; [vm_compute; reflexivity|].
  apply (proj1 (X6_no_eye_without_press
                  [(1%Q, B1_Motion 100 100); (2%Q, Button_3);
                   (3%Q, B1_Motion 120 100);
                   (4%Q, MouseWheel (Some 120) None)]
                  __init__ eq_refl
                  ltac:(intros t x y H; cbn in H;
                        repeat (destruct H as [H|H]; [discriminate|]);
                        exact H))).
Defined.

(** X7.  After any run the button counts as held exactly when the last
    press or release of the run is a press, or, in a run without press or
    release, when it was held before: moves, the wheel and the right
    button never change it. *)
Theorem X7_dragging_follows_the_button (evs : list (Q * event)) :
  forall s : state, dragging (run s evs) = held_after (dragging s) evs.
Proof.
  induction evs as [|[now ev] evs IH]; intros s; [reflexivity|].
  cbn [run]. rewrite IH, step_dragging. unfold held_after.
  cbn [fold_left snd]. destruct ev; reflexivity.
Qed.

(** X8.  While the button is held, a pointer move is dropped only if less
    than the sampling interval has passed since the recorded last send;
    so, sent or dropped, right after the handler the recorded time is less
    than one interval behind the clock. *)
Theorem X8_move_is_never_stale (now : Q) (s : state) (x y : Z) :
  dragging s = true ->
  (now - last_send_time (fst (step now s (B1_Motion x y)))
     < send_interval)%Q /\
  (commands (snd (step now s (B1_Motion x y))) = [] ->
   (now - last_send_time s < send_interval)%Q).
Proof.
  intros Hd. cbn [step].
  destruct (drag_cases now s x y) as [(_ & _ & Hs & Hc) | Hn].
  - rewrite Hs, Hc. cbn [last_send_time]. split; [|discriminate].
    unfold send_interval. lra.
  - assert (Hlt : (now - last_send_time s < send_interval)%Q).
    { apply Qnot_le_lt. intros Hle.
      destruct (drag_emits now s x y Hd Hle) as [_ Hc].
      rewrite Hn in Hc. discriminate. }
    rewrite Hn. cbn [fst]. split; [exact Hlt | intros _; exact Hlt].
Qed.

Lemma X8_move_is_never_stale_witness :
  (1000 + (3 # 1000)
     - last_send_time
         (fst (step (1000 + (3 # 1000))
                 (run __init__ [(1000%Q, Button_1 200 200);
                                (1000%Q, B1_Motion 201 200)])
                 (B1_Motion 210 200)))
     < send_interval)%Q.
Proof.
  apply (proj1 (X8_move_is_never_stale (1000 + (3 # 1000))
                  (run __init__ [(1000%Q, Button_1 200 200);
                                 (1000%Q, B1_Motion 201 200)])
                  210 200 eq_refl)).
Defined.

Lemma last_nonempty {A : Type} (l : list A) :
  forall a d d' : A, last (a :: l) d = last (a :: l) d'.
Proof.
  induction l as [|b l IH]; intros a d d'; [reflexivity|].
  change (last (b :: l) d = last (b :: l) d'). apply IH.
Qed.

Lemma last_cons_default {A : Type} (l : list A) (a d : A) :
  last (a :: l) d = last l a.
Proof.
  destruct l as [|b l]; [reflexivity|].
  change (last (b :: l) d = last (b :: l) a). apply last_nonempty.
Qed.

(** X9.  After any run, the recorded last-send time is the clock reading
    of the last pointer move that sent a command, and is what it was
    before the run when no move sent: presses, releases, the wheel and
    the right button never record a time. *)
Theorem X9_last_send_time_is_last_move (evs : list (Q * event)) :
  forall s : state,
    last_send_time (run s evs)
      = last (move_emit_times (transcript s evs)) (last_send_time s).
Proof.
  induction evs as [|[now ev] evs IH]; intros s; [reflexivity|].
  cbn [run]. rewrite IH, transcript_cons.
  unfold move_emit_times. cbn [flat_map].
  fold (move_emit_times (transcript (fst (step now s ev)) evs)).
  destruct ev as [x y|x y| | |delta num];
    try (rewrite app_nil_l, other_events_keep_time by (intros; discriminate);
         reflexivity).
  cbn [step].
  destruct (drag_cases now s x y) as [(_ & _ & Hs & Hc) | Hn].
  - rewrite Hc, Hs. cbn [last_send_time List.app].
    symmetry. apply last_cons_default.
  - rewrite Hn. reflexivity.
Qed.

(* ------------------------------------------------------------------ *)
(** ** X10 and X11: the serial port across calls of connect *)

Lemma live_app (open : list string) (a b : list effect) :
  live open (a ++ b) = live (live open a) b.
Proof. unfold live. apply fold_left_app. Qed.

Lemma peak_ge (tr : list effect) :
  forall open : list string, (List.length open <= peak open tr)%nat.
Proof. destruct tr; intros open; cbn [peak]; lia. Qed.

Lemma peak_app (a b : list effect) :
  forall open : list string,
    peak open (a ++ b) = Nat.max (peak open a) (peak (live open a) b).
Proof.
  induction a as [|e a IH]; intros open.
  - cbn [List.app peak live fold_left]. unfold live. cbn [fold_left].
    pose proof (peak_ge b open). lia.
  - cbn [List.app peak]. rewrite IH.
    change (live open (e :: a)) with (live (live_step open e) a). lia.
Qed.

Lemma held_length (c : Communication.t) : (List.length (held c) <= 1)%nat.
Proof.
  unfold held. destruct (Communication.ser c) as [p|];
    [destruct (Communication.is_open p)|]; cbn; lia.
Qed.

Lemma remove_only (p : string) : remove string_dec p [p] = [].
Proof. rewrite remove_cons. reflexivity. Qed.

(** One call: the port held before is closed before the new one opens. *)
Lemma connect_live (answer : option string) (c : Communication.t)
    (port_name : string) :
  live (held c)
    (snd (Communication.connect (fun _ _ => answer) c port_name))
    = held (fst (fst (Communication.connect (fun _ _ => answer) c port_name)))
  /\
  (peak (held c)
     (snd (Communication.connect (fun _ _ => answer) c port_name)) <= 1)%nat.
Proof.
  unfold Communication.connect, held.
  destruct (Communication.ser c) as [p|];
    [destruct (Communication.is_open p)|];
    destruct answer as [msg|]; cbn [fst snd List.app Communication.ser
      Communication.is_open Communication.ser_port];
    unfold live; cbn [fold_left live_step peak]; rewrite ?remove_only;
    cbn [List.length]; split; try reflexivity; lia.
Qed.

(** X10.  Along any sequence of calls of [connect], whatever ports are
    asked for and whichever attempts fail, never more than one serial port
    is open at a time, and at the end the only port left open is the one
    the connection object holds (none after a failed attempt): no port is
    leaked. *)
Theorem X10_one_port_at_a_time (calls : list (string * option string)) :
  forall c : Communication.t,
    live (held c) (snd (connect_all c calls))
      = held (fst (connect_all c calls)) /\
    (peak (held c) (snd (connect_all c calls)) <= 1)%nat.
Proof.
  induction calls as [|[port_name answer] calls IH]; intros c.
  - cbn. split; [reflexivity | apply held_length].
  - cbn [connect_all].
    pose proof (connect_live answer c port_name) as [L P].
    destruct (Communication.connect (fun _ _ => answer) c port_name)
      as [[c1 r] tr1]. cbn [fst snd] in L, P.
    specialize (IH c1). destruct (connect_all c1 calls) as [c2 tr2].
    cbn [fst snd] in *. destruct IH as [L2 P2].
    rewrite live_app, peak_app, L. split; [exact L2 | lia].
Qed.

(** X11.  After [connect], [send] writes to the port just opened when the
    opening succeeded, and writes nothing when it failed, also if a port
    was open before the attempt: a failed reconnection silences the link. *)
Theorem X11_send_after_connect (open_error : string -> Z -> option string)
    (c : Communication.t) (port_name cmd : string) :
  writes (snd (Communication.send
                 (fst (fst (Communication.connect open_error c port_name)))
                 cmd))
    = match open_error port_name (Communication.baudrate c) with
      | None => [(port_name, (Py.encode cmd ++ [Byte.x0a])%list)]
      | Some _ => []
      end.
Proof.
  rewrite send_wire. unfold Communication.connect, wire.
  destruct (open_error port_name (Communication.baudrate c)); reflexivity.
Qed.

(* ------------------------------------------------------------------ *)
(** ** X12 and X13: the port controls *)

(** X12.  [on_connect] with an empty selection shows the warning box and
    does nothing else: no port is touched and the status line is kept.
    With a selection it calls [connect] on it: on success the status line
    reads "Connected: <port>@<baud>" and no dialog is shown; on failure
    the status line reads "Connection Failed", the error box carries the
    message of the failure and comes after the attempt, and the connection
    object holds no port. *)
Theorem X12_on_connect_outcomes (open_error : string -> Z -> option string)
    (c : Communication.t) (w : Ports.widgets) :
  (Ports.port_var w = ""%string ->
   Ports.on_connect open_error c w
     = (c, w, [Ports.Show_warning "Connection Failed" "Select a port first"]))
  /\
  (Ports.port_var w <> ""%string ->
   let r := Communication.connect open_error c (Ports.port_var w) in
   fst (fst (Ports.on_connect open_error c w)) = fst (fst r) /\
   match open_error (Ports.port_var w) (Communication.baudrate c) with
   | None =>
       Ports.status_var (snd (fst (Ports.on_connect open_error c w)))
         = ("Connected: " ++ Ports.port_var w ++ "@"
              ++ Py.str_int (Communication.baudrate c))%string /\
       snd (Ports.on_connect open_error c w) = map Ports.World (snd r) /\
       held (fst (fst (Ports.on_connect open_error c w)))
         = [Ports.port_var w]
   | Some msg =>
       Ports.status_var (snd (fst (Ports.on_connect open_error c w)))
         = "Connection Failed"%string /\
       snd (Ports.on_connect open_error c w)
         = (map Ports.World (snd r)
              ++ [Ports.Show_error "Connection Failed" msg])%list /\
       held (fst (fst (Ports.on_connect open_error c w))) = []
   end).
Proof.
  split.
  - intros H. unfold Ports.on_connect. rewrite H. reflexivity.
  - intros H r. subst r. unfold Ports.on_connect.
    apply String.eqb_neq in H. rewrite H.
    unfold Communication.connect.
    destruct (open_error (Ports.port_var w) (Communication.baudrate c));
      cbn [fst snd]; repeat split.
Qed.

Lemma X12_on_connect_outcomes_witness :
  Ports.on_connect (fun _ _ => None) (Communication.__init__ 9600) Ports.built
    = (Communication.__init__ 9600, Ports.built,
       [Ports.Show_warning "Connection Failed" "Select a port first"]) /\
  Ports.status_var
    (snd (fst (Ports.on_connect (fun _ _ => None)
                 (Communication.__init__ 9600)
                 (Ports._update_ports Ports.built ["COM3"%string]))))
    = "Connected: COM3@9600"%string.
Proof.
  split.
  - apply (proj1 (X12_on_connect_outcomes (fun _ _ => None)
                    (Communication.__init__ 9600) Ports.built)).
    reflexivity.
  - destruct (proj2 (X12_on_connect_outcomes (fun _ _ => None)
                       (Communication.__init__ 9600)
                       (Ports._update_ports Ports.built ["COM3"%string]))
                ltac:(discriminate)) as [_ [H _]].
    rewrite H. reflexivity.
Defined.

(** X13.  After [_update_ports], the selection is the first port listed,
    so [on_connect] then tries that port and no other; when no port is
    listed the selection is emptied and [on_connect] only shows the
    warning, whatever was selected before.  The status line is not
    changed by [_update_ports]. *)
Theorem X13_update_then_connect (open_error : string -> Z -> option string)
    (c : Communication.t) (w : Ports.widgets) :
  Ports.on_connect open_error c (Ports._update_ports w [])
    = (c, Ports._update_ports w [],
       [Ports.Show_warning "Connection Failed" "Select a port first"]) /\
  Ports.status_var (Ports._update_ports w []) = Ports.status_var w /\
  (forall (p : string) (rest : list string),
      p <> ""%string ->
      Ports.status_var (Ports._update_ports w (p :: rest))
        = Ports.status_var w /\
      fst (fst (Ports.on_connect open_error c
                  (Ports._update_ports w (p :: rest))))
        = fst (fst (Communication.connect open_error c p)) /\
      exists dialogs,
        snd (Ports.on_connect open_error c
               (Ports._update_ports w (p :: rest)))
          = (map Ports.World (snd (Communication.connect open_error c p))
               ++ dialogs)%list).
Proof.
  split; [reflexivity|]. split; [reflexivity|].
  intros p rest Hp. split; [reflexivity|].
  unfold Ports.on_connect, Ports._update_ports. cbn [Ports.port_var].
  apply String.eqb_neq in Hp. rewrite Hp.
  unfold Communication.connect.
  destruct (open_error p (Communication.baudrate c)); cbn [fst snd].
  - split; [reflexivity|]. eexists. reflexivity.
  - split; [reflexivity|]. exists []. rewrite app_nil_r. reflexivity.
Qed.

Lemma X13_update_then_connect_witness :
  fst (fst (Ports.on_connect (fun _ _ => None) (Communication.__init__ 9600)
              (Ports._update_ports Ports.built ["COM7"; "COM3"]%string)))
    = connected_to "COM7".
Proof.
  destruct (proj2 (proj2 (X13_update_then_connect (fun _ _ => None)
                            (Communication.__init__ 9600) Ports.built))
              "COM7"%string ["COM3"%string] ltac:(discriminate))
    as (_ & H & _).
  rewrite H. reflexivity.
Defined.

(* ------------------------------------------------------------------ *)
(** ** X14: the rounding of the wheel *)

(** X14.  The lid steps for a wheel delta and for its opposite cancel only
    when the delta is a multiple of 120; for any other non-zero delta
    they add up to -1, because the floor division rounds both down; and
    the step never decreases when the delta grows. *)
Theorem X14_wheel_rounds_down (s : state) (d : Z) (num : option Z) :
  d <> 0 ->
  commands (snd (_on_wheel s (Some d) num))
    = [("LID " ++ Py.str_int (d / 120))%string] /\
  commands (snd (_on_wheel s (Some (- d)) num))
    = [("LID " ++ Py.str_int (- d / 120))%string] /\
  d / 120 + - d / 120 = (if d mod 120 =? 0 then 0 else -1) /\
  (forall d' : Z, d <= d' -> d / 120 <= d' / 120).
Proof.
  intros Hd.
  split; [apply wheel_delta, Hd|].
  split; [apply wheel_delta; lia|].
  split.
  - destruct (d mod 120 =? 0) eqn:E.
    + apply Z.eqb_eq in E. rewrite Z.div_opp_l_z by (lia || exact E). lia.
    + apply Z.eqb_neq in E. rewrite Z.div_opp_l_nz by (lia || exact E). lia.
  - intros d' H. apply Z.div_le_mono; lia.
Qed.

Lemma X14_wheel_rounds_down_witness :
  commands (snd (_on_wheel __init__ (Some 60) None)) = ["LID 0"%string] /\
  commands (snd (_on_wheel __init__ (Some (-60)) None)) = ["LID -1"%string].
Proof.
  destruct (X14_wheel_rounds_down __init__ 60 None ltac:(lia))
    as (H1 & H2 & _).
  split; [exact H1 | exact H2].
Defined.

(* ------------------------------------------------------------------ *)
(** ** X15: every command is one line *)

Lemma one_line_app (a b : string) :
  one_line (a ++ b) = one_line a && one_line b.
Proof.
  unfold one_line. induction a as [|ch a IH]; [reflexivity|].
  cbn [String.append list_ascii_of_string forallb].
  rewrite IH. apply andb_assoc.
Qed.

Lemma uint_one_line (u : Decimal.uint) :
  one_line (NilEmpty.string_of_uint u) = true.
Proof.
  unfold one_line.
  induction u; cbn [NilEmpty.string_of_uint list_ascii_of_string forallb];
    try rewrite IHu; reflexivity.
Qed.

Lemma str_int_one_line (z : Z) : one_line (Py.str_int z) = true.
Proof.
  unfold Py.str_int, NilZero.string_of_int, NilZero.string_of_uint.
  destruct (Z.to_int z) as [u|u].
  - destruct u; try reflexivity; apply uint_one_line.
  - change (String "-" ?t) with ("-" ++ t)%string.
    destruct u; try reflexivity;
      (rewrite one_line_app, uint_one_line; reflexivity).
Qed.

Lemma digit_one_line (k : Z) :
  0 <= k <= 9 -> one_line (String (Py.digit k) "") = true.
Proof.
  intros H.
  assert (E : k = 0 \/ k = 1 \/ k = 2 \/ k = 3 \/ k = 4 \/ k = 5 \/
              k = 6 \/ k = 7 \/ k = 8 \/ k = 9) by lia.
  repeat (destruct E as [-> | E]; [reflexivity|]). subst k. reflexivity.
Qed.

Lemma fixed2_one_line (h : Z) : one_line (Py.fixed2 h) = true.
Proof.
  unfold Py.fixed2.
  change (String (Py.digit (h mod 100 / 10)) (String (Py.digit (h mod 10)) ""))
    with (String (Py.digit (h mod 100 / 10)) ""
            ++ String (Py.digit (h mod 10)) "")%string.
  rewrite !one_line_app, str_int_one_line.
  rewrite !digit_one_line; [reflexivity| |].
  - pose proof (Z.mod_pos_bound h 10 ltac:(lia)). lia.
  - pose proof (Z.mod_pos_bound h 100 ltac:(lia)).
    split; [apply Z.div_pos; lia|].
    apply Z.lt_succ_r, Z.div_lt_upper_bound; lia.
Qed.

Lemma format_2f_one_line (f : float) : one_line (Py.format_2f f) = true.
Proof.
  destruct f as [s|s| |s m e]; cbn [Py.format_2f];
    try (destruct s; reflexivity); try reflexivity.
  rewrite one_line_app, fixed2_one_line. destruct s; reflexivity.
Qed.

Lemma command_one_line (cmd : string) : is_command cmd -> one_line cmd = true.
Proof.
  intros [(x & y & ->) | [(d & ->) | ->]].
  - unfold eye_line. rewrite !one_line_app, !format_2f_one_line. reflexivity.
  - rewrite one_line_app, str_int_one_line. reflexivity.
  - reflexivity.
Qed.

(** X15.  Every command a run hands to the transport is an EYE line of a
    pointer position, a LID line of an integer, or BLINK, and contains no
    line feed: each write on the port is exactly one line, ended by the
    only line feed in it. *)
Theorem X15_commands_are_single_lines (s : state) (evs : list (Q * event)) :
  Forall (fun cmd => is_command cmd /\ one_line cmd = true)
    (commands (trace s evs)).
Proof.
  apply (trace_rect_comm (comm s)
           (fun tr => Forall (fun cmd => is_command cmd /\ one_line cmd = true)
                        (commands tr))); [constructor| | |reflexivity].
  - intros a b Ha Hb. rewrite commands_app. apply Forall_app.
    split; assumption.
  - intros now s' ev _.
    destruct (step_effects now s' ev) as [H | [(x & y & H) | (cmd & Hc & H)]];
      rewrite H.
    + constructor.
    + rewrite commands_app, send_commands. cbn [draw_dot commands flat_map List.app].
      assert (Hi : is_command (eye_line (gaze x y)))
        by (left; exists x, y; reflexivity).
      constructor; [split; [exact Hi | apply command_one_line, Hi]|].
      constructor.
    + rewrite send_commands.
      assert (Hi : is_command cmd).
      { destruct Hc as [Hc | Hc]; [right; left | right; right]; exact Hc. }
      constructor; [split; [exact Hi | apply command_one_line, Hi]|].
      constructor.
Qed.

(* ------------------------------------------------------------------ *)
(** ** X16: the texts are odd about the centre *)

Lemma mirror_text :
  forallb
    (fun t =>
       (t =? center_x)
       || (String.eqb
             (Py.format_2f (map_axis (2 * center_x - t) center_x radius))
             (Py.format_2f (Float64.opp (map_axis t center_x radius)))
           && String.eqb
                (Py.format_2f
                   (Float64.opp (map_axis (2 * center_x - t) center_x radius)))
                (Py.format_2f
                   (Float64.opp (Float64.opp (map_axis t center_x radius))))))
    pixels = true.
Proof. vm_compute. reflexivity. Qed.

Lemma inside_mirror (x y : Z) :
  inside x y = true ->
  inside (2 * center_x - x) y = true /\ inside x (2 * center_y - y) = true.
Proof.
  rewrite !inside_iff. intros H.
  replace ((2 * center_x - x - center_x) * (2 * center_x - x - center_x))
    with ((x - center_x) * (x - center_x)) by ring.
  replace ((2 * center_y - y - center_y) * (2 * center_y - y - center_y))
    with ((y - center_y) * (y - center_y)) by ring.
  split; exact H.
Qed.

(** X16.  On the wire the mapping is odd about the centre.  For a pointer
    position on or inside the circle and off the vertical axis of the
    radar, the handler sends for the position mirrored about that axis
    the line of the original position with the sign of the x text
    flipped and the same y text; likewise, off the horizontal axis, it
    sends for the position mirrored about it the line with the sign of
    the y text flipped and the same x text. *)
Theorem X16_mirrored_positions (s : state) (x y : Z) :
  inside x y = true ->
  commands (snd (_update_dot_and_send s x y))
    = [("EYE " ++ Py.format_2f (fst (gaze x y)) ++ " "
          ++ Py.format_2f (snd (gaze x y)))%string] /\
  (x <> center_x ->
   commands (snd (_update_dot_and_send s (2 * center_x - x) y))
     = [("EYE " ++ Py.format_2f (Float64.opp (fst (gaze x y))) ++ " "
           ++ Py.format_2f (snd (gaze x y)))%string] /\
   Py.format_2f (fst (gaze (2 * center_x - x) y))
     = Py.format_2f (Float64.opp (fst (gaze x y))) /\
   snd (gaze (2 * center_x - x) y) = snd (gaze x y)) /\
  (y <> center_y ->
   commands (snd (_update_dot_and_send s x (2 * center_y - y)))
     = [("EYE " ++ Py.format_2f (fst (gaze x y)) ++ " "
           ++ Py.format_2f (Float64.opp (snd (gaze x y))))%string] /\
   Py.format_2f (snd (gaze x (2 * center_y - y)))
     = Py.format_2f (Float64.opp (snd (gaze x y))) /\
   fst (gaze x (2 * center_y - y)) = fst (gaze x y)).
Proof.
  intros Hin. destruct (inside_mirror x y Hin) as [Hx Hy].
  destruct (inside_bounds x y Hin) as [Bx By].
  rewrite !update_commands. unfold eye_line.
  split; [reflexivity|].
  assert (Tx : x <> center_x ->
               Py.format_2f (fst (gaze (2 * center_x - x) y))
                 = Py.format_2f (Float64.opp (fst (gaze x y))) /\
               snd (gaze (2 * center_x - x) y) = snd (gaze x y)).
  { intros Hne.
    rewrite !gaze_eq, (target_inside _ _ Hin), (target_inside _ _ Hx).
    cbn [fst snd]. split; [|reflexivity].
    pose proof (on_pixels _ x mirror_text Bx) as H. cbv beta in H.
    apply Z.eqb_neq in Hne. rewrite Hne in H. cbn [orb] in H.
    apply andb_true_iff in H. apply String.eqb_eq, H. }
  assert (Ty : y <> center_y ->
               Py.format_2f (snd (gaze x (2 * center_y - y)))
                 = Py.format_2f (Float64.opp (snd (gaze x y))) /\
               fst (gaze x (2 * center_y - y)) = fst (gaze x y)).
  { intros Hne.
    rewrite !gaze_eq, (target_inside _ _ Hin), (target_inside _ _ Hy).
    cbn [fst snd]. split; [|reflexivity].
    pose proof (on_pixels _ y mirror_text By) as H. cbv beta in H.
    change center_y with center_x in *.
    apply Z.eqb_neq in Hne. rewrite Hne in H. cbn [orb] in H.
    apply andb_true_iff in H. apply String.eqb_eq, H. }
  split; intros Hne.
  - destruct (Tx Hne) as [T1 T2]. rewrite T1, T2. repeat split.
  - destruct (Ty Hne) as [T1 T2]. rewrite T1, T2. repeat split.
Qed.

Lemma X16_mirrored_positions_witness :
  commands (snd (_update_dot_and_send __init__ 300 250))
    = ["EYE 27.78 -13.89"%string] /\
  commands (snd (_update_dot_and_send __init__ (2 * center_x - 300) 250))
    = ["EYE -27.78 -13.89"%string].
Proof.
  destruct (X16_mirrored_positions __init__ 300 250
              ltac:(vm_compute; reflexivity)) as (H0 & H1 & _).
  destruct (H1 ltac:(vm_compute; discriminate)) as (H2 & _).
  split; [rewrite H0 | rewrite H2]; vm_compute; reflexivity.
Defined.

(* ------------------------------------------------------------------ *)
(** ** X17: no sample is lost at or below the rate *)

(** X17.  While the button is held, if the moves come at least the
    sampling interval apart from each other and from the recorded last
    send, every one of them is sent: the run sends one EYE line per move,
    in order, each for the position of its move. *)
Theorem X17_spaced_moves_all_send (moves : list move) :
  forall s : state,
    dragging s = true ->
    StronglySorted apart (last_send_time s :: map fst moves) ->
    move_emit_times (transcript s (map move_event moves)) = map fst moves /\
    commands (trace s (map move_event moves))
      = map (fun m => eye_line (gaze (fst (snd m)) (snd (snd m)))) moves.
Proof.
  induction moves as [|[t [x y]] moves IH]; intros s Hd HS;
    [split; reflexivity|].
  cbn [map fst snd] in *.
  apply StronglySorted_inv in HS. destruct HS as [HS HF].
  apply Forall_cons_iff in HF. destruct HF as [Ha _].
  destruct (drag_emits t s x y Hd Ha) as [Hs Hc].
  unfold move_event at 1 3. cbn [fst snd].
  rewrite trace_cons, transcript_cons, commands_app.
  unfold move_emit_times. cbn [flat_map].
  fold (move_emit_times (transcript (fst (step t s (B1_Motion x y)))
                           (map move_event moves))).
  cbn [step]. rewrite Hc, Hs.
  destruct (IH {| comm := comm s; dragging := true; last_send_time := t |}
              eq_refl HS) as [I1 I2].
  rewrite I1, I2. split; reflexivity.
Qed.

Lemma X17_spaced_moves_all_send_witness :
  commands (trace (fst (step 1 __init__ (Button_1 200 200)))
              (map move_event tight_moves))
    = ["EYE 2.78 -0.00"; "EYE 8.33 -0.00"]%string /\
  move_emit_times
    (transcript (fst (step 1 __init__ (Button_1 200 200)))
       (map move_event [(1%Q, (210, 200)); ((1 + (1 # 100))%Q, (230, 200))]))
    = [1%Q; (1 + (1 # 100))%Q].
Proof.
  split; [vm_compute; reflexivity|].
  apply (proj1 (X17_spaced_moves_all_send
                  [(1%Q, (210, 200)); ((1 + (1 # 100))%Q, (230, 200))]
                  (fst (step 1 __init__ (Button_1 200 200))) eq_refl
                  ltac:(repeat constructor; vm_compute; discriminate))).
Defined.

(* ------------------------------------------------------------------ *)
(** ** X18: two decimals tell the pixels apart *)

Lemma column_texts_differ : texts_differ column_texts = true.
Proof. vm_compute. reflexivity. Qed.

Lemma column_texts_no_space :
  forallb (fun t => no_space (Py.format_2f (map_axis t center_x radius)))
    pixels = true.
Proof. vm_compute. reflexivity. Qed.

(** Two texts without a space that are followed by a space in equal
    texts are equal. *)
Lemma split_at_space (t1 : string) :
  forall t2 u1 u2 : string,
    no_space t1 = true -> no_space t2 = true ->
    (t1 ++ String " " u1 = t2 ++ String " " u2)%string -> t1 = t2.
Proof.
  induction t1 as [|c1 t1 IH]; intros t2 u1 u2 N1 N2 E;
    destruct t2 as [|c2 t2]; cbn [String.append] in E.
  - reflexivity.
  - injection E as Ec _. subst c2. discriminate N2.
  - injection E as Ec _. subst c1. discriminate N1.
  - injection E as Ec Et. subst c2. f_equal.
    unfold no_space in N1, N2.
    cbn [list_ascii_of_string forallb] in N1, N2.
    apply andb_true_iff in N1, N2.
    apply (IH t2 u1 u2); [apply N1 | apply N2 | exact Et].
Qed.

(** X18.  For two pointer positions on or inside the circle in different
    columns, the handler sends different EYE lines, with different x
    texts: the two decimals of the EYE line are enough to tell every
    pixel column apart. *)
Theorem X18_columns_have_distinct_texts (s : state) (x1 y1 x2 y2 : Z) :
  inside x1 y1 = true -> inside x2 y2 = true -> x1 <> x2 ->
  Py.format_2f (fst (gaze x1 y1)) <> Py.format_2f (fst (gaze x2 y2)) /\
  commands (snd (_update_dot_and_send s x1 y1))
    = [("EYE " ++ Py.format_2f (fst (gaze x1 y1)) ++ " "
          ++ Py.format_2f (snd (gaze x1 y1)))%string] /\
  commands (snd (_update_dot_and_send s x2 y2))
    = [("EYE " ++ Py.format_2f (fst (gaze x2 y2)) ++ " "
          ++ Py.format_2f (snd (gaze x2 y2)))%string] /\
  commands (snd (_update_dot_and_send s x1 y1))
    <> commands (snd (_update_dot_and_send s x2 y2)).
Proof.
  intros H1 H2 Hne.
  pose proof (proj1 (inside_bounds _ _ H1)) as B1.
  pose proof (proj1 (inside_bounds _ _ H2)) as B2.
  pose proof (pixels_spec x1 B1) as P1.
  pose proof (pixels_spec x2 B2) as P2.
  assert (I1 : In (x1, Py.format_2f (map_axis x1 center_x radius))
                 column_texts).
  { unfold column_texts. apply in_map_iff. exists x1.
    split; [reflexivity | exact P1]. }
  assert (I2 : In (x2, Py.format_2f (map_axis x2 center_x radius))
                 column_texts).
  { unfold column_texts. apply in_map_iff. exists x2.
    split; [reflexivity | exact P2]. }
  pose proof (proj1 (forallb_forall _ _) column_texts_differ _ I1) as HT.
  pose proof (proj1 (forallb_forall _ _) HT _ I2) as HT2.
  cbn [fst snd] in HT2. apply orb_true_iff in HT2.
  destruct HT2 as [HT2|HT2]; [apply Z.eqb_eq in HT2; contradiction|].
  apply negb_true_iff, String.eqb_neq in HT2.
  assert (D : Py.format_2f (fst (gaze x1 y1))
              <> Py.format_2f (fst (gaze x2 y2))).
  { rewrite !gaze_eq, (target_inside _ _ H1), (target_inside _ _ H2).
    exact HT2. }
  split; [exact D|].
  rewrite !update_commands. unfold eye_line.
  split; [reflexivity|]. split; [reflexivity|].
  intros E. injection E as E. apply D.
  apply (split_at_space _ _ (Py.format_2f (snd (gaze x1 y1)))
           (Py.format_2f (snd (gaze x2 y2)))).
  - rewrite gaze_eq, (target_inside _ _ H1). cbn [fst].
    apply (on_pixels _ _ column_texts_no_space B1).
  - rewrite gaze_eq, (target_inside _ _ H2). cbn [fst].
    apply (on_pixels _ _ column_texts_no_space B2).
  - exact E.
Qed.

Lemma X18_columns_have_distinct_texts_witness :
  commands (snd (_update_dot_and_send __init__ 100 250))
    <> commands (snd (_update_dot_and_send __init__ 101 150)).
Proof.
  apply (X18_columns_have_distinct_texts __init__ 100 250 101 150);
    [vm_compute; reflexivity | vm_compute; reflexivity | lia].
Defined.

(* ------------------------------------------------------------------ *)
(** ** X19: the wheel and the right button do not disturb a drag *)

Lemma with_comm_send_state (s : state) (cmd : string) :
  fst (with_comm s (Communication.send (comm s) cmd)) = s.
Proof. destruct s; reflexivity. Qed.

Lemma aside_events_keep_state (now : Q) (s : state) (ev : event) :
  match ev with Button_3 | MouseWheel _ _ => True | _ => False end ->
  fst (step now s ev) = s /\ eye_commands (commands (snd (step now s ev))) = [].
Proof.
  destruct ev as [x y|x y| | |delta num]; try contradiction; intros _;
    cbn [step].
  - unfold _on_right_click, EyeMech.blink.
    rewrite with_comm_send_state, with_comm_commands, send_commands.
    split; reflexivity.
  - unfold _on_wheel, EyeMech.control_lid.
    destruct (negb (getattr_delta delta =? 0));
      [|destruct num as [n|]; [destruct ((n =? 4) || (n =? 5))|]];
      rewrite ?with_comm_send_state, ?with_comm_commands, ?send_commands;
      split; reflexivity.
Qed.

Lemma eye_commands_app (a b : list string) :
  eye_commands (a ++ b) = (eye_commands a ++ eye_commands b)%list.
Proof. unfold eye_commands. apply filter_app. Qed.

Lemma eye_line_kept (g : float * float) :
  eye_commands [eye_line g] = [eye_line g].
Proof.
  unfold eye_commands, eye_line. cbn [filter].
  assert (H : String.prefix "EYE "
                ("EYE " ++ Py.format_2f (fst g) ++ " "
                   ++ Py.format_2f (snd g)) = true).
  { cbn.
    match goal with
    | |- String.prefix _ ?r = true => destruct r; reflexivity
    end. }
  rewrite H. reflexivity.
Qed.

Lemma pointer_step_commands (now : Q) (s : state) (ev : event) :
  match ev with Button_3 | MouseWheel _ _ => False | _ => True end ->
  eye_commands (commands (snd (step now s ev))) = commands (snd (step now s ev)).
Proof.
  destruct ev as [x y|x y| | |delta num]; try contradiction; intros _;
    cbn [step].
  - rewrite press_commands. apply eye_line_kept.
  - destruct (drag_cases now s x y) as [(_ & _ & _ & Hc) | Hn].
    + rewrite Hc. apply eye_line_kept.
    + rewrite Hn. reflexivity.
  - reflexivity.
Qed.

(** X19.  Wheel and right-button events do not disturb a drag: removing
    them from a run changes neither the state it ends in (button held,
    last-send time, connection) nor the EYE lines sent, which are exactly
    the commands of the run without them. *)
Theorem X19_wheel_and_click_do_not_interfere (evs : list (Q * event)) :
  forall s : state,
    run s evs = run s (pointer_events evs) /\
    eye_commands (commands (trace s evs))
      = commands (trace s (pointer_events evs)).
Proof.
  induction evs as [|[now ev] evs IH]; intros s; [split; reflexivity|].
  cbn [run]. rewrite trace_cons, commands_app, eye_commands_app.
  destruct ev as [x y|x y| | |delta num]; unfold pointer_events;
    cbn [filter snd]; fold (pointer_events evs).
  - cbn [run]. rewrite trace_cons, commands_app.
    destruct (IH (fst (step now s (Button_1 x y)))) as [I1 I2].
    rewrite I1, I2, pointer_step_commands by exact I. split; reflexivity.
  - cbn [run]. rewrite trace_cons, commands_app.
    destruct (IH (fst (step now s (B1_Motion x y)))) as [I1 I2].
    rewrite I1, I2, pointer_step_commands by exact I. split; reflexivity.
  - cbn [run]. rewrite trace_cons, commands_app.
    destruct (IH (fst (step now s ButtonRelease_1))) as [I1 I2].
    rewrite I1, I2, pointer_step_commands by exact I. split; reflexivity.
  - destruct (aside_events_keep_state now s Button_3 I) as [A1 A2].
    rewrite A1, A2. apply IH.
  - destruct (aside_events_keep_state now s (MouseWheel delta num) I)
      as [A1 A2].
    rewrite A1, A2. apply IH.
Qed.
